(** * Sub-resource reconciliation of the NFS resources of a StorageCluster

    A shallow embedding of the reconcilers of
    [controllers/storagecluster]: the NFS [Service], the [CephNFS]
    (network filesystem) instance, and the block pool backing it.

    Every reconciler has the two entry points [ensureCreated] and
    [ensureDeleted].  They talk to the cluster through [r.Client]; here
    the client is an arbitrary implementation of the four verbs, the
    cluster state it works on is threaded explicitly, and every call is
    recorded together with its answer, so that statements such as "no
    create is issued" are statements about the recorded calls.

    [r.Log] is write-only and never influences control flow; it is left
    out of the model. *)

From Stdlib Require Import ZArith Ascii String List Bool Lia.
From stdpp Require Import base option gmap strings list fin_maps.
Import ListNotations.
Local Open Scope string_scope.
Local Open Scope Z_scope.

(** ** Go errors *)

(** The [error] values that flow through this package: API status
    errors produced by the client ([*apierrors.StatusError], identified
    by their reason) and plain errors made with [fmt.Errorf] /
    [errors.New].  A nil error is [None] in [option error]. *)
Inductive StatusReason :=
| StatusReasonUnknown
| StatusReasonNotFound
| StatusReasonAlreadyExists
| StatusReasonConflict
| StatusReasonInvalid
| StatusReasonTimeout
| StatusReasonInternalError
| StatusReasonServiceUnavailable.

Inductive error :=
| StatusError (reason : StatusReason) (message : string)
| errorString (s : string).

(** [err.Error()] *)
Definition Error (err : error) : string :=
  match err with
  | StatusError _ message => message
  | errorString s => s
  end.

(** [errors.IsNotFound(err)] of k8s.io/apimachinery/pkg/api/errors. *)
Definition IsNotFound (err : error) : bool :=
  match err with
  | StatusError StatusReasonNotFound _ => true
  | _ => false
  end.

(** ** metav1 *)

(** [metav1.Time]: an instant, counted from the zero time. *)
Definition Time := Z.

(** [IsZero] on a [metav1.Time] pointer: a nil pointer is zero. *)
Definition Time_IsZero (t : option Time) : bool :=
  match t with
  | None => true
  | Some t => t =? 0
  end.

Module OwnerReference.
Record t := mk {
    APIVersion : string;
    Kind : string;
    Name : string;
    UID : string;
    Controller : option bool;
    BlockOwnerDeletion : option bool;
  }.
End OwnerReference.

Module ObjectMeta.
Record t := mk {
    Name : string;
    Namespace : string;
    UID : string;
    ResourceVersion : string;
    Generation : Z;
    CreationTimestamp : Time;
    DeletionTimestamp : option Time;
    Labels : gmap string string;
    Annotations : gmap string string;
    OwnerReferences : list OwnerReference.t;
    Finalizers : list string;
  }.

(** [metav1.ObjectMeta{Name: name, Namespace: namespace}] *)
Definition named (name namespace : string) : t :=
    mk name namespace "" "" 0 0 None ∅ ∅ [] [].

(** [m.OwnerReferences = refs] *)
Definition setOwnerReferences (refs : list OwnerReference.t) (m : t) : t :=
    mk m.(Name) m.(Namespace) m.(UID) m.(ResourceVersion) m.(Generation)
       m.(CreationTimestamp) m.(DeletionTimestamp) m.(Labels) m.(Annotations)
       refs m.(Finalizers).

(** [m.DeletionTimestamp = ts] (done by the API server only). *)
Definition setDeletionTimestamp (ts : option Time) (m : t) : t :=
    mk m.(Name) m.(Namespace) m.(UID) m.(ResourceVersion) m.(Generation)
       m.(CreationTimestamp) ts m.(Labels) m.(Annotations)
       m.(OwnerReferences) m.(Finalizers).
End ObjectMeta.

(** [types.NamespacedName] *)
Module NamespacedName.
Record t := mk { Name : string; Namespace : string }.
End NamespacedName.

Module GroupVersionKind.
Record t := mk { Group : string; Version : string; Kind : string }.

(** [gvk.GroupVersion().String()] *)
Definition GroupVersionString (gvk : t) : string :=
    if String.eqb gvk.(Group) "" then gvk.(Version)
    else gvk.(Group) +:+ "/" +:+ gvk.(Version).
End GroupVersionKind.

(** ** reconcile.Result *)

Module Result.
Record t := mk { Requeue : bool; RequeueAfter : Z }.
(** [reconcile.Result{}] *)
Definition zero : t := mk false 0.
End Result.

(** ** Pass-through payload types

    Values of these types are produced by collaborators of the package
    (placement, sizing and replication helpers) and are only copied into
    the desired objects; they are kept in reduced form. *)

Module ResourceRequirements.
Record t := mk {
  Limits : gmap string string;
  Requests : gmap string string;
}.
End ResourceRequirements.

Module Placement.
Record t := mk {
  NodeAffinity : list string;
  Tolerations : list string;
}.
End Placement.

Module ReplicatedSpec.
Record t := mk {
  Size : Z;
  RequireSafeReplicaSize : bool;
  ReplicasPerFailureDomain : Z;
}.
End ReplicatedSpec.

(** ** ocsv1: the parent resource *)

Module NFSSpec.
Record t := mk { Enable : bool }.
End NFSSpec.

Module NetworkSpec.
Record t := mk { HostNetwork : bool }.
End NetworkSpec.

Module StorageClusterSpec.
Record t := mk {
  NFS : option NFSSpec.t;
  Network : option NetworkSpec.t;
  Resources : gmap string ResourceRequirements.t;
  Placement : gmap string Placement.t;
  MonDataDirHostPath : string;
  FlexibleScaling : bool;
}.
End StorageClusterSpec.

Module StorageCluster.
Record t := mk {
  ObjectMeta : ObjectMeta.t;
  Spec : StorageClusterSpec.t;
}.
(** Promoted fields of the embedded [ObjectMeta]. *)
Definition Name (sc : t) : string := sc.(ObjectMeta).(ObjectMeta.Name).
Definition Namespace (sc : t) : string := sc.(ObjectMeta).(ObjectMeta.Namespace).
End StorageCluster.

(** ** corev1: Service *)

(** [intstr.IntOrString]; the field [Type] ([Type_] here, the word being
    reserved) is [0] for Int and [1] for String. *)
Module IntOrString.
Record t := mk { Type_ : Z; IntVal : Z; StrVal : string }.
Definition zero : t := mk 0 0 "".
(** [intstr.FromInt(val)] *)
Definition FromInt (val : Z) : t := mk 0 val "".
End IntOrString.

(** [v1.Protocol], [v1.ServiceAffinity] and [v1.ServiceType] are string
    types. *)
Definition ProtocolTCP : string := "TCP".
Definition ClusterIPNone : string := "None".

Module ServicePort.
Record t := mk {
  Name : string;
  Protocol : string;
  Port : Z;
  TargetPort : IntOrString.t;
  NodePort : Z;
}.
End ServicePort.

Module ServiceSpec.
Record t := mk {
  Ports : list ServicePort.t;
  Selector : gmap string string;
  ClusterIP : string;
  ClusterIPs : list string;
  Type_ : string;
  ExternalIPs : list string;
  SessionAffinity : string;
}.
(** [spec.Ports = ports] and the like. *)
Definition setPorts (ports : list ServicePort.t) (s : t) : t :=
  mk ports s.(Selector) s.(ClusterIP) s.(ClusterIPs) s.(Type_) s.(ExternalIPs)
     s.(SessionAffinity).
Definition setSelector (sel : gmap string string) (s : t) : t :=
  mk s.(Ports) sel s.(ClusterIP) s.(ClusterIPs) s.(Type_) s.(ExternalIPs)
     s.(SessionAffinity).
Definition setClusterIP (ip : string) (s : t) : t :=
  mk s.(Ports) s.(Selector) ip s.(ClusterIPs) s.(Type_) s.(ExternalIPs)
     s.(SessionAffinity).
Definition setSessionAffinity (aff : string) (s : t) : t :=
  mk s.(Ports) s.(Selector) s.(ClusterIP) s.(ClusterIPs) s.(Type_)
     s.(ExternalIPs) aff.
End ServiceSpec.

Module ServiceStatus.
Record t := mk { LoadBalancerIngress : list string }.
Definition zero : t := mk [].
End ServiceStatus.

Module Service.
Record t := mk {
  ObjectMeta : ObjectMeta.t;
  Spec : ServiceSpec.t;
  Status : ServiceStatus.t;
}.
Definition setObjectMeta (m : ObjectMeta.t) (s : t) : t :=
  mk m s.(Spec) s.(Status).
Definition setSpec (sp : ServiceSpec.t) (s : t) : t :=
  mk s.(ObjectMeta) sp s.(Status).
(** Promoted fields of the embedded [ObjectMeta]. *)
Definition Name (s : t) : string := s.(ObjectMeta).(ObjectMeta.Name).
Definition Namespace (s : t) : string := s.(ObjectMeta).(ObjectMeta.Namespace).
Definition DeletionTimestamp (s : t) : option Time :=
  s.(ObjectMeta).(ObjectMeta.DeletionTimestamp).
(** [s.GetDeletionTimestamp()] *)
Definition GetDeletionTimestamp (s : t) : option Time :=
  s.(ObjectMeta).(ObjectMeta.DeletionTimestamp).
End Service.

(** ** cephv1: CephNFS and CephBlockPool *)

Module GaneshaServerSpec.
Record t := mk {
  Active : Z;
  Placement : Placement.t;
  Resources : ResourceRequirements.t;
  PriorityClassName : string;
  LogLevel : string;
}.
End GaneshaServerSpec.

Module NFSGaneshaSpec.
Record t := mk { Server : GaneshaServerSpec.t }.
End NFSGaneshaSpec.

Module CephNFS.
Record t := mk {
  ObjectMeta : ObjectMeta.t;
  Spec : NFSGaneshaSpec.t;
  Status : string;
}.
Definition setObjectMeta (m : ObjectMeta.t) (c : t) : t :=
  mk m c.(Spec) c.(Status).
Definition setSpec (sp : NFSGaneshaSpec.t) (c : t) : t :=
  mk c.(ObjectMeta) sp c.(Status).
Definition Name (c : t) : string := c.(ObjectMeta).(ObjectMeta.Name).
Definition Namespace (c : t) : string := c.(ObjectMeta).(ObjectMeta.Namespace).
Definition DeletionTimestamp (c : t) : option Time :=
  c.(ObjectMeta).(ObjectMeta.DeletionTimestamp).
Definition GetDeletionTimestamp (c : t) : option Time :=
  c.(ObjectMeta).(ObjectMeta.DeletionTimestamp).
End CephNFS.

Module PoolSpec.
Record t := mk {
  FailureDomain : string;
  Replicated : ReplicatedSpec.t;
  EnableRBDStats : bool;
  DeviceClass : string;
}.
End PoolSpec.

Module NamedBlockPoolSpec.
Record t := mk { Name : string; PoolSpec : PoolSpec.t }.
End NamedBlockPoolSpec.

Module CephBlockPool.
Record t := mk {
  ObjectMeta : ObjectMeta.t;
  Spec : NamedBlockPoolSpec.t;
  Status : string;
}.
Definition setObjectMeta (m : ObjectMeta.t) (c : t) : t :=
  mk m c.(Spec) c.(Status).
Definition setSpec (sp : NamedBlockPoolSpec.t) (c : t) : t :=
  mk c.(ObjectMeta) sp c.(Status).
Definition Name (c : t) : string := c.(ObjectMeta).(ObjectMeta.Name).
Definition Namespace (c : t) : string := c.(ObjectMeta).(ObjectMeta.Namespace).
Definition DeletionTimestamp (c : t) : option Time :=
  c.(ObjectMeta).(ObjectMeta.DeletionTimestamp).
Definition GetDeletionTimestamp (c : t) : option Time :=
  c.(ObjectMeta).(ObjectMeta.DeletionTimestamp).
End CephBlockPool.

(** ** Collaborators of the package that are not part of these files *)

(** Placement, sizing, failure-domain and replication helpers, the
    priority class constant and the name of the NFS block pool are
    defined elsewhere; the reconcilers are stated over any
    implementation of them. *)
Class Collaborators := {
  getPlacement : StorageCluster.t -> string -> Placement.t;
  GetDaemonResources :
    string -> gmap string ResourceRequirements.t -> ResourceRequirements.t;
  getFailureDomain : StorageCluster.t -> string;
  generateCephReplicatedSpec : StorageCluster.t -> string -> ReplicatedSpec.t;
  openshiftUserCritical : string;
  generateNameForCephNFSBlockPool : StorageCluster.t -> string;
}.

(** Modelled from the spec: the naming helpers [generateNameForCephNFS],
    [generateNameForCephNetworkFilesystem] and [generateNameForNFSService]
    are missing from the sources.  The spec has the derived name a
    deterministic function of the parent identity and the kind; the
    tests pin the three names of a parent called [ocsinit] to
    [ocsinit-cephnfs], [ocsinit-cephnetworkfilesystem] and
    [ocsinit-cephnfs-service]. *)
Definition generateNameForCephNFS (initData : StorageCluster.t) : string :=
  StorageCluster.Name initData +:+ "-cephnfs".

Definition generateNameForCephNetworkFilesystem (initData : StorageCluster.t)
  : string :=
  StorageCluster.Name initData +:+ "-cephnetworkfilesystem".

Definition generateNameForNFSService (initData : StorageCluster.t) : string :=
  StorageCluster.Name initData +:+ "-cephnfs-service".

(** ** Results of fallible calls *)

(** A Go pair [(value, err)] of which the value is meaningful exactly
    when [err == nil]. *)
Inductive result (T : Type) :=
| Ok (x : T)
| Err (err : error).
Arguments Ok {T} x.
Arguments Err {T} err.

(** ** controllerutil.SetControllerReference *)

(** The builders end with [controllerutil.SetControllerReference], a
    function of controller-runtime.  What a builder answers, and whether
    it fails, is decided there, so it is written out after the library:
    the owner is validated, its kind is looked up in the scheme, and the
    controller reference is added to the owner references. *)

(** The scheme, as far as this package consults it: the kinds registered
    for the Go type of the parent. *)
Module Scheme.
Record t := mk { StorageClusterKinds : list GroupVersionKind.t }.
End Scheme.

(** [apiutil.GVKForObject(owner, scheme)] *)
Definition GVKForObject (scheme : Scheme.t) : result GroupVersionKind.t :=
  match scheme.(Scheme.StorageClusterKinds) with
  | [] => Err (errorString
      "no kind is registered for the type v1.StorageCluster in scheme")
  | [gvk] => Ok gvk
  | _ => Err (errorString
      "multiple group-version-kinds associated with type *v1.StorageCluster, refusing to guess at one")
  end.

Definition validateOwner (owner : StorageCluster.t) (object : ObjectMeta.t)
  : option error :=
  let ownerNs := StorageCluster.Namespace owner in
  if negb (String.eqb ownerNs "") then
    let objNs := object.(ObjectMeta.Namespace) in
    if String.eqb objNs "" then
      Some (errorString
        ("cluster-scoped resource must not have a namespace-scoped owner, owner's namespace "
         +:+ ownerNs))
    else if negb (String.eqb ownerNs objNs) then
      Some (errorString
        ("cross-namespace owner references are disallowed, owner's namespace "
         +:+ ownerNs +:+ ", obj's namespace " +:+ objNs))
    else None
  else None.

(** The group of an [APIVersion] of the form [group/version]; the core
    group is empty. *)
Fixpoint beforeSlash (s : string) : option string :=
  match s with
  | EmptyString => None
  | String c rest =>
      if Ascii.eqb c "/"%char then Some EmptyString
      else option_map (String c) (beforeSlash rest)
  end.

Definition groupOf (apiVersion : string) : string :=
  match beforeSlash apiVersion with
  | Some g => g
  | None => ""
  end.

Definition referSameObject (a b : OwnerReference.t) : bool :=
  String.eqb (groupOf a.(OwnerReference.APIVersion))
             (groupOf b.(OwnerReference.APIVersion))
  && String.eqb a.(OwnerReference.Kind) b.(OwnerReference.Kind)
  && String.eqb a.(OwnerReference.Name) b.(OwnerReference.Name).

(** [metav1.GetControllerOf] *)
Definition GetControllerOf (controlled : ObjectMeta.t)
  : option OwnerReference.t :=
  List.find (fun ref => match ref.(OwnerReference.Controller) with
                        | Some true => true
                        | _ => false
                        end)
            controlled.(ObjectMeta.OwnerReferences).

Fixpoint upsertOwnerRef (ref : OwnerReference.t)
  (owners : list OwnerReference.t) : list OwnerReference.t :=
  match owners with
  | [] => [ref]
  | o :: rest =>
      if referSameObject o ref then ref :: rest
      else o :: upsertOwnerRef ref rest
  end.

(** [controllerutil.SetControllerReference(owner, controlled, scheme)],
    acting on the metadata of the controlled object: [Ok m] is the
    metadata after the call, [Err err] leaves it as it was. *)
Definition SetControllerReference (owner : StorageCluster.t)
  (controlled : ObjectMeta.t) (scheme : Scheme.t) : result ObjectMeta.t :=
  match validateOwner owner controlled with
  | Some err => Err err
  | None =>
    match GVKForObject scheme with
    | Err err => Err err
    | Ok gvk =>
      let ref := OwnerReference.mk
        (GroupVersionKind.GroupVersionString gvk)
        gvk.(GroupVersionKind.Kind)
        (StorageCluster.Name owner)
        owner.(StorageCluster.ObjectMeta).(ObjectMeta.UID)
        (Some true) (Some true) in
      match GetControllerOf controlled with
      | Some existing =>
          if referSameObject existing ref then
            Ok (ObjectMeta.setOwnerReferences
                  (upsertOwnerRef ref controlled.(ObjectMeta.OwnerReferences))
                  controlled)
          else
            Err (errorString
              ("Object " +:+ controlled.(ObjectMeta.Namespace) +:+ "/"
               +:+ controlled.(ObjectMeta.Name)
               +:+ " is already owned by another "
               +:+ existing.(OwnerReference.Kind) +:+ " controller "
               +:+ existing.(OwnerReference.Name)))
      | None =>
          Ok (ObjectMeta.setOwnerReferences
                (upsertOwnerRef ref controlled.(ObjectMeta.OwnerReferences))
                controlled)
      end
    end
  end.

(** ** The client and the record of its calls *)

(** [client.Client] restricted to one kind of object [Obj], over a
    cluster state [St] of the implementation's choosing.  [Get] answers
    [Ok obj] when [err == nil]. *)
Module Client.
Record t (Obj St : Type) := mk {
  Get : NamespacedName.t -> St -> result Obj * St;
  Create : Obj -> St -> option error * St;
  Update : Obj -> St -> option error * St;
  Delete : Obj -> St -> option error * St;
}.
Arguments mk {Obj St}.
Arguments Get {Obj St}.
Arguments Create {Obj St}.
Arguments Update {Obj St}.
Arguments Delete {Obj St}.
End Client.

(** One call of the client, with the answer it got. *)
Inductive Call (Obj : Type) :=
| CallGet (key : NamespacedName.t) (out : result Obj)
| CallCreate (obj : Obj) (err : option error)
| CallUpdate (obj : Obj) (err : option error)
| CallDelete (obj : Obj) (err : option error).
Arguments CallGet {Obj}.
Arguments CallCreate {Obj}.
Arguments CallUpdate {Obj}.
Arguments CallDelete {Obj}.

(** A call that asks the cluster to change something. *)
Definition isMutating {Obj} (c : Call Obj) : bool :=
  match c with
  | CallGet _ _ => false
  | _ => true
  end.

Definition isGet {Obj} (c : Call Obj) : bool :=
  match c with
  | CallGet _ _ => true
  | _ => false
  end.

Module StorageClusterReconciler.
Record t (Obj St : Type) := mk {
  Client : Client.t Obj St;
  Scheme : Scheme.t;
}.
Arguments mk {Obj St}.
Arguments Client {Obj St}.
Arguments Scheme {Obj St}.
End StorageClusterReconciler.

(** The cluster state together with the calls made so far, oldest
    first. *)
Record World (Obj St : Type) := mkWorld {
  cluster : St;
  calls : list (Call Obj);
}.
Arguments mkWorld {Obj St}.
Arguments cluster {Obj St}.
Arguments calls {Obj St}.

(** Code that calls the client. *)
Definition M (Obj St A : Type) : Type := World Obj St -> A * World Obj St.

Definition ret {Obj St A} (a : A) : M Obj St A := fun w => (a, w).

Definition bind {Obj St A B} (m : M Obj St A) (k : A -> M Obj St B)
  : M Obj St B :=
  fun w => let '(a, w') := m w in k a w'.

Notation "'let*' x ':=' m 'in' k" := (bind m (fun x => k))
  (at level 10, x name, m at level 100, k at level 200).

Section ClientCalls.
Context {Obj St : Type}.
Variable r : StorageClusterReconciler.t Obj St.

(** [r.Client.Get(ctx, key, &obj)] *)
Definition Client_Get (key : NamespacedName.t) : M Obj St (result Obj) :=
  fun w =>
    let '(out, st) :=
      Client.Get r.(StorageClusterReconciler.Client) key w.(cluster) in
    (out, mkWorld st (w.(calls) ++ [CallGet key out])).

(** [r.Client.Create(ctx, obj)] *)
Definition Client_Create (obj : Obj) : M Obj St (option error) :=
  fun w =>
    let '(err, st) :=
      Client.Create r.(StorageClusterReconciler.Client) obj w.(cluster) in
    (err, mkWorld st (w.(calls) ++ [CallCreate obj err])).

(** [r.Client.Update(ctx, obj)] *)
Definition Client_Update (obj : Obj) : M Obj St (option error) :=
  fun w =>
    let '(err, st) :=
      Client.Update r.(StorageClusterReconciler.Client) obj w.(cluster) in
    (err, mkWorld st (w.(calls) ++ [CallUpdate obj err])).

(** [r.Client.Delete(ctx, obj)] *)
Definition Client_Delete (obj : Obj) : M Obj St (option error) :=
  fun w =>
    let '(err, st) :=
      Client.Delete r.(StorageClusterReconciler.Client) obj w.(cluster) in
    (err, mkWorld st (w.(calls) ++ [CallDelete obj err])).

End ClientCalls.

(** What a reconciler entry point returns: [(reconcile.Result, error)]. *)
Definition Outcome : Type := Result.t * option error.

(** [instance.Spec.NFS == nil || !instance.Spec.NFS.Enable] *)
Definition nfsNotEnabled (instance : StorageCluster.t) : bool :=
  match instance.(StorageCluster.Spec).(StorageClusterSpec.NFS) with
  | None => true
  | Some nfs => negb nfs.(NFSSpec.Enable)
  end.

(** The error every [ensureCreated] returns for a live object that is
    being deleted. *)
Definition errMarkedForDeletion (name : string) : error :=
  errorString ("failed to restore initialization object " +:+ name
               +:+ " because it is marked for deletion").

(** ** nfsservice.go: the NFS Service *)

Module ocsNFSService.
Section WithClient.
Context `{Collaborators} {St : Type}.
Variable r : StorageClusterReconciler.t Service.t St.

(** [newNFSService] returns the Service instance that should be created
    on first run. *)
Definition newNFSService (initData : StorageCluster.t) : result Service.t :=
  let nfsPort : Z := 2049 in
  let obj := Service.mk
    (ObjectMeta.named (generateNameForNFSService initData)
                      (StorageCluster.Namespace initData))
    (ServiceSpec.mk
       [ServicePort.mk "nfs" ProtocolTCP nfsPort (IntOrString.FromInt nfsPort) 0]
       (<["app" := "rook-ceph-nfs"]>
          (<["ceph_nfs" := generateNameForCephNetworkFilesystem initData]> ∅))
       "" [] "" [] "ClientIP")
    ServiceStatus.zero in
  let obj :=
    match initData.(StorageCluster.Spec).(StorageClusterSpec.Network) with
    | Some network =>
        if network.(NetworkSpec.HostNetwork) then
          Service.setSpec
            (ServiceSpec.setClusterIP ClusterIPNone obj.(Service.Spec)) obj
        else obj
    | None => obj
    end in
  match SetControllerReference initData obj.(Service.ObjectMeta)
          r.(StorageClusterReconciler.Scheme) with
  | Err err => Err err
  | Ok meta => Ok (Service.setObjectMeta meta obj)
  end.

(** [ensureDeleted] deletes the NFS Service owned by the StorageCluster. *)
Definition ensureDeleted (sc : StorageCluster.t) : M Service.t St Outcome :=
  match newNFSService sc with
  | Err err => ret (Result.zero, Some err)
  | Ok nfsService =>
    let key := NamespacedName.mk (Service.Name nfsService)
                                 (StorageCluster.Namespace sc) in
    let* out := Client_Get r key in
    match out with
    | Err err =>
        if IsNotFound err then ret (Result.zero, None)
        else ret (Result.zero, Some (errorString
               ("uninstall: Unable to retrieve NFS Service "
                +:+ Service.Name nfsService +:+ ": " +:+ Error err)))
    | Ok foundNFSService =>
      let refetch : M Service.t St Outcome :=
        let* out := Client_Get r key in
        match out with
        | Err err =>
            if IsNotFound err then ret (Result.zero, None)
            else ret (Result.zero, Some (errorString
                   ("uninstall: Waiting for NFS Service "
                    +:+ Service.Name nfsService +:+ " to be deleted")))
        | Ok _ =>
            ret (Result.zero, Some (errorString
              ("uninstall: Waiting for NFS Service "
               +:+ Service.Name nfsService +:+ " to be deleted")))
        end in
      if Time_IsZero (Service.GetDeletionTimestamp nfsService) then
        let* err := Client_Delete r foundNFSService in
        match err with
        | Some err =>
            ret (Result.zero, Some (errorString
              ("uninstall: Failed to delete NFS Service "
               +:+ Service.Name foundNFSService +:+ ": " +:+ Error err)))
        | None => refetch
        end
      else refetch
    end
  end.

(** [ensureCreated] ensures that NFS Service resources exist in the
    desired state. *)
Definition ensureCreated (instance : StorageCluster.t)
  : M Service.t St Outcome :=
  if nfsNotEnabled instance then ensureDeleted instance
  else
    match newNFSService instance with
    | Err err => ret (Result.zero, Some err)
    | Ok nfsService =>
      let* out := Client_Get r (NamespacedName.mk (Service.Name nfsService)
                                  (Service.Namespace nfsService)) in
      match out with
      | Ok existing =>
          match Service.DeletionTimestamp existing with
          | Some _ =>
              ret (Result.zero,
                   Some (errMarkedForDeletion (Service.Name existing)))
          | None =>
              let existing := Service.setObjectMeta
                (ObjectMeta.setOwnerReferences
                   nfsService.(Service.ObjectMeta).(ObjectMeta.OwnerReferences)
                   existing.(Service.ObjectMeta)) existing in
              let existing := Service.setSpec
                (ServiceSpec.setPorts
                   nfsService.(Service.Spec).(ServiceSpec.Ports)
                   existing.(Service.Spec)) existing in
              let existing := Service.setSpec
                (ServiceSpec.setSelector
                   nfsService.(Service.Spec).(ServiceSpec.Selector)
                   existing.(Service.Spec)) existing in
              let existing := Service.setSpec
                (ServiceSpec.setSessionAffinity
                   nfsService.(Service.Spec).(ServiceSpec.SessionAffinity)
                   existing.(Service.Spec)) existing in
              let* err := Client_Update r existing in
              match err with
              | Some err => ret (Result.zero, Some err)
              | None => ret (Result.zero, None)
              end
          end
      | Err err =>
          if IsNotFound err then
            let* err := Client_Create r nfsService in
            match err with
            | Some err => ret (Result.zero, Some err)
            | None => ret (Result.zero, None)
            end
          else ret (Result.zero, None)
      end
    end.

End WithClient.
End ocsNFSService.

(** ** cephnetworkfilesystem.go: the CephNFS network filesystem *)

Module ocsCephNetworkFilesystem.
Section WithClient.
Context `{Collaborators} {St : Type}.
Variable r : StorageClusterReconciler.t CephNFS.t St.

(** [newCephNetworkFilesystemInstance] returns the cephNetworkFilesystem
    instance that should be created on first run. *)
Definition newCephNetworkFilesystemInstance (initData : StorageCluster.t)
  : result CephNFS.t :=
  let obj := CephNFS.mk
    (ObjectMeta.named (generateNameForCephNetworkFilesystem initData)
                      (StorageCluster.Namespace initData))
    (NFSGaneshaSpec.mk
       (GaneshaServerSpec.mk 1
          (getPlacement initData "nfs")
          (GetDaemonResources "nfs"
             initData.(StorageCluster.Spec).(StorageClusterSpec.Resources))
          openshiftUserCritical
          ""))
    "" in
  match SetControllerReference initData obj.(CephNFS.ObjectMeta)
          r.(StorageClusterReconciler.Scheme) with
  | Err err => Err err
  | Ok meta => Ok (CephNFS.setObjectMeta meta obj)
  end.

(** [ensureDeleted] deletes the CephNetworkFilesystems owned by the
    StorageCluster. *)
Definition ensureDeleted (sc : StorageCluster.t) : M CephNFS.t St Outcome :=
  match newCephNetworkFilesystemInstance sc with
  | Err err => ret (Result.zero, Some err)
  | Ok cephNetworkFilesystem =>
    let key := NamespacedName.mk (CephNFS.Name cephNetworkFilesystem)
                                 (StorageCluster.Namespace sc) in
    let* out := Client_Get r key in
    match out with
    | Err err =>
        if IsNotFound err then ret (Result.zero, None)
        else ret (Result.zero, Some (errorString
               ("uninstall: Unable to retrieve cephNetworkFilesystem "
                +:+ CephNFS.Name cephNetworkFilesystem +:+ ": "
                +:+ Error err)))
    | Ok foundCephNetworkFilesystem =>
      let refetch : M CephNFS.t St Outcome :=
        let* out := Client_Get r key in
        match out with
        | Err err =>
            if IsNotFound err then ret (Result.zero, None)
            else ret (Result.zero, Some (errorString
                   ("uninstall: Waiting for cephNetworkFilesystem "
                    +:+ CephNFS.Name cephNetworkFilesystem
                    +:+ " to be deleted")))
        | Ok _ =>
            ret (Result.zero, Some (errorString
              ("uninstall: Waiting for cephNetworkFilesystem "
               +:+ CephNFS.Name cephNetworkFilesystem +:+ " to be deleted")))
        end in
      if Time_IsZero (CephNFS.GetDeletionTimestamp cephNetworkFilesystem) then
        let* err := Client_Delete r foundCephNetworkFilesystem in
        match err with
        | Some err =>
            ret (Result.zero, Some (errorString
              ("uninstall: Failed to delete cephNetworkFilesystem "
               +:+ CephNFS.Name foundCephNetworkFilesystem +:+ ": "
               +:+ Error err)))
        | None => refetch
        end
      else refetch
    end
  end.

(** [ensureCreated] ensures that cephNetworkFilesystem resources exist in
    the desired state. *)
Definition ensureCreated (instance : StorageCluster.t)
  : M CephNFS.t St Outcome :=
  if nfsNotEnabled instance then ensureDeleted instance
  else
    match newCephNetworkFilesystemInstance instance with
    | Err err => ret (Result.zero, Some err)
    | Ok cephNetworkFilesystem =>
      let* out := Client_Get r
        (NamespacedName.mk (CephNFS.Name cephNetworkFilesystem)
                           (CephNFS.Namespace cephNetworkFilesystem)) in
      match out with
      | Ok existing =>
          match CephNFS.DeletionTimestamp existing with
          | Some _ =>
              ret (Result.zero,
                   Some (errMarkedForDeletion (CephNFS.Name existing)))
          | None =>
              let existing := CephNFS.setObjectMeta
                (ObjectMeta.setOwnerReferences
                   cephNetworkFilesystem.(CephNFS.ObjectMeta).(ObjectMeta.OwnerReferences)
                   existing.(CephNFS.ObjectMeta)) existing in
              let existing :=
                CephNFS.setSpec cephNetworkFilesystem.(CephNFS.Spec) existing in
              let* err := Client_Update r existing in
              match err with
              | Some err => ret (Result.zero, Some err)
              | None => ret (Result.zero, None)
              end
          end
      | Err err =>
          if IsNotFound err then
            let* err := Client_Create r cephNetworkFilesystem in
            match err with
            | Some err => ret (Result.zero, Some err)
            | None => ret (Result.zero, None)
            end
          else ret (Result.zero, None)
      end
    end.

End WithClient.
End ocsCephNetworkFilesystem.

(** ** cephnfs.go: CephNFS, its block pool and its Service *)

Module ocsCephNFS.
Section WithClient.
Context `{Collaborators} {St : Type}.
Variable r : StorageClusterReconciler.t CephNFS.t St.

(** [newCephNFSInstance] returns the cephNFS instance that should be
    created on first run. *)
Definition newCephNFSInstance (initData : StorageCluster.t)
  : result CephNFS.t :=
  let obj := CephNFS.mk
    (ObjectMeta.named (generateNameForCephNFS initData)
                      (StorageCluster.Namespace initData))
    (NFSGaneshaSpec.mk
       (GaneshaServerSpec.mk 1
          (getPlacement initData "nfs")
          (GetDaemonResources "nfs"
             initData.(StorageCluster.Spec).(StorageClusterSpec.Resources))
          openshiftUserCritical
          ""))
    "" in
  match SetControllerReference initData obj.(CephNFS.ObjectMeta)
          r.(StorageClusterReconciler.Scheme) with
  | Err err => Err err
  | Ok meta => Ok (CephNFS.setObjectMeta meta obj)
  end.

(** [ensureDeleted] deletes the CephNFS resource owned by the
    StorageCluster. *)
Definition ensureDeleted (sc : StorageCluster.t) : M CephNFS.t St Outcome :=
  match newCephNFSInstance sc with
  | Err err => ret (Result.zero, Some err)
  | Ok cephNFS =>
    let key := NamespacedName.mk (CephNFS.Name cephNFS)
                                 (StorageCluster.Namespace sc) in
    let* out := Client_Get r key in
    match out with
    | Err err =>
        if IsNotFound err then ret (Result.zero, None)
        else ret (Result.zero, Some (errorString
               ("uninstall: Unable to retrieve CephNFS "
                +:+ CephNFS.Name cephNFS +:+ ": " +:+ Error err)))
    | Ok foundCephNFS =>
      let refetch : M CephNFS.t St Outcome :=
        let* out := Client_Get r key in
        match out with
        | Err err =>
            if IsNotFound err then ret (Result.zero, None)
            else ret (Result.zero, Some (errorString
                   ("uninstall: Waiting for CephNFS "
                    +:+ CephNFS.Name cephNFS +:+ " to be deleted")))
        | Ok _ =>
            ret (Result.zero, Some (errorString
              ("uninstall: Waiting for CephNFS "
               +:+ CephNFS.Name cephNFS +:+ " to be deleted")))
        end in
      if Time_IsZero (CephNFS.GetDeletionTimestamp cephNFS) then
        let* err := Client_Delete r foundCephNFS in
        match err with
        | Some err =>
            ret (Result.zero, Some (errorString
              ("uninstall: Failed to delete CephNFS "
               +:+ CephNFS.Name foundCephNFS +:+ ": " +:+ Error err)))
        | None => refetch
        end
      else refetch
    end
  end.

(** [ensureCreated] ensures that cephNFS resource exist in the desired
    state. *)
Definition ensureCreated (instance : StorageCluster.t)
  : M CephNFS.t St Outcome :=
  if nfsNotEnabled instance then ensureDeleted instance
  else
    match newCephNFSInstance instance with
    | Err err => ret (Result.zero, Some err)
    | Ok cephNFS =>
      let* out := Client_Get r
        (NamespacedName.mk (CephNFS.Name cephNFS)
                           (CephNFS.Namespace cephNFS)) in
      match out with
      | Ok existingCephNFS =>
          match CephNFS.DeletionTimestamp existingCephNFS with
          | Some _ =>
              ret (Result.zero,
                   Some (errMarkedForDeletion (CephNFS.Name existingCephNFS)))
          | None =>
              let existingCephNFS := CephNFS.setObjectMeta
                (ObjectMeta.setOwnerReferences
                   cephNFS.(CephNFS.ObjectMeta).(ObjectMeta.OwnerReferences)
                   existingCephNFS.(CephNFS.ObjectMeta)) existingCephNFS in
              let existingCephNFS :=
                CephNFS.setSpec cephNFS.(CephNFS.Spec) existingCephNFS in
              let* err := Client_Update r existingCephNFS in
              match err with
              | Some err => ret (Result.zero, Some err)
              | None => ret (Result.zero, None)
              end
          end
      | Err err =>
          if IsNotFound err then
            let* err := Client_Create r cephNFS in
            match err with
            | Some err => ret (Result.zero, Some err)
            | None => ret (Result.zero, None)
            end
          else ret (Result.zero, None)
      end
    end.

End WithClient.
End ocsCephNFS.

Module ocsCephNFSBlockPool.
Section WithClient.
Context `{Collaborators} {St : Type}.
Variable r : StorageClusterReconciler.t CephBlockPool.t St.

(** [newCephNFSBlockPoolInstance] returns the cephBlockPool instance
    required for cephNFS that should be created on first run. *)
Definition newCephNFSBlockPoolInstance (initData : StorageCluster.t)
  : result CephBlockPool.t :=
  let obj := CephBlockPool.mk
    (ObjectMeta.named (generateNameForCephNFSBlockPool initData)
                      (StorageCluster.Namespace initData))
    (NamedBlockPoolSpec.mk ".nfs"
       (PoolSpec.mk (getFailureDomain initData)
                    (generateCephReplicatedSpec initData "data")
                    true
                    ""))
    "" in
  match SetControllerReference initData obj.(CephBlockPool.ObjectMeta)
          r.(StorageClusterReconciler.Scheme) with
  | Err err => Err err
  | Ok meta => Ok (CephBlockPool.setObjectMeta meta obj)
  end.

(** [ensureDeleted] deletes the CephNFS related CephBlockPool resource
    owned by the StorageCluster. *)
Definition ensureDeleted (sc : StorageCluster.t)
  : M CephBlockPool.t St Outcome :=
  match newCephNFSBlockPoolInstance sc with
  | Err err => ret (Result.zero, Some err)
  | Ok cephBlockPool =>
    let key := NamespacedName.mk (CephBlockPool.Name cephBlockPool)
                                 (StorageCluster.Namespace sc) in
    let* out := Client_Get r key in
    match out with
    | Err err =>
        if IsNotFound err then ret (Result.zero, None)
        else ret (Result.zero, Some (errorString
               ("uninstall: unable to retrieve CephBlockPool "
                +:+ CephBlockPool.Name cephBlockPool +:+ ": "
                +:+ Error err)))
    | Ok foundCephBlockPool =>
      let refetch : M CephBlockPool.t St Outcome :=
        let* out := Client_Get r key in
        match out with
        | Err err =>
            if IsNotFound err then ret (Result.zero, None)
            else ret (Result.zero, Some (errorString
                   ("uninstall: Waiting for CephBlockPool "
                    +:+ CephBlockPool.Name cephBlockPool
                    +:+ " to be deleted")))
        | Ok _ =>
            ret (Result.zero, Some (errorString
              ("uninstall: Waiting for CephBlockPool "
               +:+ CephBlockPool.Name cephBlockPool +:+ " to be deleted")))
        end in
      if Time_IsZero (CephBlockPool.GetDeletionTimestamp cephBlockPool) then
        let* err := Client_Delete r foundCephBlockPool in
        match err with
        | Some err =>
            ret (Result.zero, Some (errorString
              ("uninstall: Failed to delete CephBlockPool "
               +:+ CephBlockPool.Name foundCephBlockPool +:+ ": "
               +:+ Error err)))
        | None => refetch
        end
      else refetch
    end
  end.

(** [ensureCreated] ensures that CephNFS related CephBlockPool resource
    exist in the desired state. *)
Definition ensureCreated (instance : StorageCluster.t)
  : M CephBlockPool.t St Outcome :=
  if nfsNotEnabled instance then ensureDeleted instance
  else
    match newCephNFSBlockPoolInstance instance with
    | Err err => ret (Result.zero, Some err)
    | Ok cephBlockPool =>
      let* out := Client_Get r
        (NamespacedName.mk (CephBlockPool.Name cephBlockPool)
                           (CephBlockPool.Namespace cephBlockPool)) in
      match out with
      | Ok existingBlockPool =>
          match CephBlockPool.DeletionTimestamp existingBlockPool with
          | Some _ =>
              ret (Result.zero,
                   Some (errMarkedForDeletion
                           (CephBlockPool.Name existingBlockPool)))
          | None =>
              let existingBlockPool := CephBlockPool.setObjectMeta
                (ObjectMeta.setOwnerReferences
                   cephBlockPool.(CephBlockPool.ObjectMeta).(ObjectMeta.OwnerReferences)
                   existingBlockPool.(CephBlockPool.ObjectMeta))
                existingBlockPool in
              let existingBlockPool :=
                CephBlockPool.setSpec cephBlockPool.(CephBlockPool.Spec)
                                      existingBlockPool in
              let* err := Client_Update r existingBlockPool in
              match err with
              | Some err => ret (Result.zero, Some err)
              | None => ret (Result.zero, None)
              end
          end
      | Err err =>
          if IsNotFound err then
            let* err := Client_Create r cephBlockPool in
            match err with
            | Some err => ret (Result.zero, Some err)
            | None => ret (Result.zero, None)
            end
          else ret (Result.zero, None)
      end
    end.

End WithClient.
End ocsCephNFSBlockPool.

Module ocsCephNFSService.
Section WithClient.
Context `{Collaborators} {St : Type}.
Variable r : StorageClusterReconciler.t Service.t St.

(** [newNFSService] of cephnfs.go returns the Service instance that
    should be created on first run. *)
Definition newNFSService (initData : StorageCluster.t) : result Service.t :=
  let obj := Service.mk
    (ObjectMeta.named (generateNameForNFSService initData)
                      (StorageCluster.Namespace initData))
    (ServiceSpec.mk
       [ServicePort.mk "nfs" "" 2049 IntOrString.zero 0]
       (<["app" := "rook-ceph-nfs"]>
          (<["ceph_nfs" := generateNameForCephNFS initData]> ∅))
       "" [] "" [] "ClientIP")
    ServiceStatus.zero in
  match SetControllerReference initData obj.(Service.ObjectMeta)
          r.(StorageClusterReconciler.Scheme) with
  | Err err => Err err
  | Ok meta => Ok (Service.setObjectMeta meta obj)
  end.

(** [ensureDeleted] deletes the cephNFS related service owned by the
    StorageCluster. *)
Definition ensureDeleted (sc : StorageCluster.t) : M Service.t St Outcome :=
  match newNFSService sc with
  | Err err => ret (Result.zero, Some err)
  | Ok nfsService =>
    let key := NamespacedName.mk (Service.Name nfsService)
                                 (StorageCluster.Namespace sc) in
    let* out := Client_Get r key in
    match out with
    | Err err =>
        if IsNotFound err then ret (Result.zero, None)
        else ret (Result.zero, Some (errorString
               ("uninstall: Unable to retrieve NFS Service "
                +:+ Service.Name nfsService +:+ ": " +:+ Error err)))
    | Ok foundNFSService =>
      let refetch : M Service.t St Outcome :=
        let* out := Client_Get r key in
        match out with
        | Err err =>
            if IsNotFound err then ret (Result.zero, None)
            else ret (Result.zero, Some (errorString
                   ("uninstall: Waiting for NFS Service "
                    +:+ Service.Name nfsService +:+ " to be deleted")))
        | Ok _ =>
            ret (Result.zero, Some (errorString
              ("uninstall: Waiting for NFS Service "
               +:+ Service.Name nfsService +:+ " to be deleted")))
        end in
      if Time_IsZero (Service.GetDeletionTimestamp nfsService) then
        let* err := Client_Delete r foundNFSService in
        match err with
        | Some err =>
            ret (Result.zero, Some (errorString
              ("uninstall: Failed to delete NFS Service "
               +:+ Service.Name foundNFSService +:+ ": " +:+ Error err)))
        | None => refetch
        end
      else refetch
    end
  end.

(** [ensureCreated] ensures that cephNFS related service resource exist
    in the desired state. *)
Definition ensureCreated (instance : StorageCluster.t)
  : M Service.t St Outcome :=
  if nfsNotEnabled instance then ensureDeleted instance
  else
    match newNFSService instance with
    | Err err => ret (Result.zero, Some err)
    | Ok nfsService =>
      let* out := Client_Get r (NamespacedName.mk (Service.Name nfsService)
                                  (Service.Namespace nfsService)) in
      match out with
      | Ok existingNFSService =>
          match Service.DeletionTimestamp existingNFSService with
          | Some _ =>
              ret (Result.zero,
                   Some (errMarkedForDeletion
                           (Service.Name existingNFSService)))
          | None =>
              let existingNFSService := Service.setObjectMeta
                (ObjectMeta.setOwnerReferences
                   nfsService.(Service.ObjectMeta).(ObjectMeta.OwnerReferences)
                   existingNFSService.(Service.ObjectMeta))
                existingNFSService in
              let existingNFSService :=
                Service.setSpec nfsService.(Service.Spec) existingNFSService in
              let* err := Client_Update r existingNFSService in
              match err with
              | Some err => ret (Result.zero, Some err)
              | None => ret (Result.zero, None)
              end
          end
      | Err err =>
          if IsNotFound err then
            let* err := Client_Create r nfsService in
            match err with
            | Some err => ret (Result.zero, Some err)
            | None => ret (Result.zero, None)
            end
          else ret (Result.zero, None)
      end
    end.

End WithClient.
End ocsCephNFSService.

(** ** The objects a client handles *)

(** [metav1.Object]: access to the metadata of an API object. *)
Class Object (Obj : Type) := {
  GetObjectMeta : Obj -> ObjectMeta.t;
  SetObjectMeta : ObjectMeta.t -> Obj -> Obj;
}.

#[global] Instance Service_Object : Object Service.t :=
  {| GetObjectMeta := Service.ObjectMeta;
     SetObjectMeta := Service.setObjectMeta |}.

#[global] Instance CephNFS_Object : Object CephNFS.t :=
  {| GetObjectMeta := CephNFS.ObjectMeta;
     SetObjectMeta := CephNFS.setObjectMeta |}.

#[global] Instance CephBlockPool_Object : Object CephBlockPool.t :=
  {| GetObjectMeta := CephBlockPool.ObjectMeta;
     SetObjectMeta := CephBlockPool.setObjectMeta |}.

(** [client.ObjectKeyFromObject(obj)] *)
Definition ObjectKeyFromObject {Obj} `{Object Obj} (obj : Obj)
  : NamespacedName.t :=
  NamespacedName.mk (GetObjectMeta obj).(ObjectMeta.Name)
                    (GetObjectMeta obj).(ObjectMeta.Namespace).

#[global] Instance NamespacedName_eq_dec : EqDecision NamespacedName.t.
Proof. solve_decision. Defined.

#[global] Instance NamespacedName_countable : Countable NamespacedName.t :=
  inj_countable'
    (fun k => (k.(NamespacedName.Name), k.(NamespacedName.Namespace)))
    (fun p => NamespacedName.mk p.1 p.2)
    (fun k => match k with NamespacedName.mk _ _ => eq_refl end).

(** ** A cluster that never fails: the object store

    Modelled from the spec: the resource-management substrate is not
    part of this repository.  The spec describes it as a key/kind
    addressable object store with get, create, update and delete; this
    is that store for one kind and one cluster, with no failures other
    than the ones the state itself implies (not found, already exists).
    Deleting an object that carries finalizers only marks it for
    deletion, which is how a delete can be accepted and the object
    still be present at the next fetch. *)
Module Store.
Section Store.
Context {Obj : Type} `{Object Obj}.

(** When a delete is accepted at [now], objects with finalizers get
    that deletion timestamp. *)
Variable now : Time.

Definition errNotFound (key : NamespacedName.t) : error :=
  StatusError StatusReasonNotFound (key.(NamespacedName.Name) +:+ " not found").

Definition errAlreadyExists (key : NamespacedName.t) : error :=
  StatusError StatusReasonAlreadyExists
              (key.(NamespacedName.Name) +:+ " already exists").

Definition Get (key : NamespacedName.t) (st : gmap NamespacedName.t Obj)
  : result Obj * gmap NamespacedName.t Obj :=
  match st !! key with
  | Some obj => (Ok obj, st)
  | None => (Err (errNotFound key), st)
  end.

Definition Create (obj : Obj) (st : gmap NamespacedName.t Obj)
  : option error * gmap NamespacedName.t Obj :=
  let key := ObjectKeyFromObject obj in
  match st !! key with
  | Some _ => (Some (errAlreadyExists key), st)
  | None => (None, <[key := obj]> st)
  end.

Definition Update (obj : Obj) (st : gmap NamespacedName.t Obj)
  : option error * gmap NamespacedName.t Obj :=
  let key := ObjectKeyFromObject obj in
  match st !! key with
  | Some _ => (None, <[key := obj]> st)
  | None => (Some (errNotFound key), st)
  end.

Definition Delete (obj : Obj) (st : gmap NamespacedName.t Obj)
  : option error * gmap NamespacedName.t Obj :=
  let key := ObjectKeyFromObject obj in
  match st !! key with
  | Some live =>
      match (GetObjectMeta live).(ObjectMeta.Finalizers) with
      | [] => (None, delete key st)
      | _ :: _ =>
          match (GetObjectMeta live).(ObjectMeta.DeletionTimestamp) with
          | Some _ => (None, st)
          | None =>
              (None,
               <[key := SetObjectMeta
                          (ObjectMeta.setDeletionTimestamp (Some now)
                             (GetObjectMeta live)) live]> st)
          end
      end
  | None => (Some (errNotFound key), st)
  end.

Definition client : Client.t Obj (gmap NamespacedName.t Obj) :=
  Client.mk Get Create Update Delete.

(** Every object is stored under its own name and namespace. *)
Definition wellKeyed (st : gmap NamespacedName.t Obj) : Prop :=
  forall key obj, st !! key = Some obj -> ObjectKeyFromObject obj = key.

End Store.
End Store.

(** A client whose every call fails with the same error, as when the
    API server cannot be reached. *)
Definition unreachable {Obj : Type} (err : error) : Client.t Obj unit :=
  Client.mk (fun _ st => (Err err, st))
            (fun _ st => (Some err, st))
            (fun _ st => (Some err, st))
            (fun _ st => (Some err, st)).

(** ** What the update path submits

    [ensureCreated] patches the fetched object in place before it calls
    [Update].  These are the patched objects, named so that statements
    can refer to them; that the code submits exactly these is proved
    below, against the code. *)

(** nfsservice.go copies the owner references, the ports, the selector
    and the session affinity. *)
Definition restoreNFSService (nfsService existing : Service.t) : Service.t :=
  Service.mk
    (ObjectMeta.setOwnerReferences
       nfsService.(Service.ObjectMeta).(ObjectMeta.OwnerReferences)
       existing.(Service.ObjectMeta))
    (ServiceSpec.mk
       nfsService.(Service.Spec).(ServiceSpec.Ports)
       nfsService.(Service.Spec).(ServiceSpec.Selector)
       existing.(Service.Spec).(ServiceSpec.ClusterIP)
       existing.(Service.Spec).(ServiceSpec.ClusterIPs)
       existing.(Service.Spec).(ServiceSpec.Type_)
       existing.(Service.Spec).(ServiceSpec.ExternalIPs)
       nfsService.(Service.Spec).(ServiceSpec.SessionAffinity))
    existing.(Service.Status).

(** The other reconcilers copy the owner references and the whole
    spec. *)
Definition restoreCephNFSService (nfsService existing : Service.t)
  : Service.t :=
  Service.mk
    (ObjectMeta.setOwnerReferences
       nfsService.(Service.ObjectMeta).(ObjectMeta.OwnerReferences)
       existing.(Service.ObjectMeta))
    nfsService.(Service.Spec)
    existing.(Service.Status).

Definition restoreCephNFS (cephNFS existing : CephNFS.t) : CephNFS.t :=
  CephNFS.mk
    (ObjectMeta.setOwnerReferences
       cephNFS.(CephNFS.ObjectMeta).(ObjectMeta.OwnerReferences)
       existing.(CephNFS.ObjectMeta))
    cephNFS.(CephNFS.Spec)
    existing.(CephNFS.Status).

Definition restoreCephBlockPool (cephBlockPool existing : CephBlockPool.t)
  : CephBlockPool.t :=
  CephBlockPool.mk
    (ObjectMeta.setOwnerReferences
       cephBlockPool.(CephBlockPool.ObjectMeta).(ObjectMeta.OwnerReferences)
       existing.(CephBlockPool.ObjectMeta))
    cephBlockPool.(CephBlockPool.Spec)
    existing.(CephBlockPool.Status).

(** The "waiting to be deleted" errors. *)
Definition errWaiting (what name : string) : error :=
  errorString ("uninstall: Waiting for " +:+ what +:+ " " +:+ name
               +:+ " to be deleted").

(** ** Contracts of a reconciler

    The five reconcilers are separate functions in the source.  What is
    claimed of all of them is stated once, over the builder and the two
    entry points of any one kind, and then proved of each.  Every run
    starts from a cluster state [st] with no call recorded yet, so the
    calls of the final world are exactly the calls of that run. *)

Section Contracts.
Context {Obj St : Type} `{Object Obj}.
Variable build :
  StorageClusterReconciler.t Obj St -> StorageCluster.t -> result Obj.
Variables ensureCreated ensureDeleted :
  StorageClusterReconciler.t Obj St -> StorageCluster.t -> M Obj St Outcome.

(** The key under which [ensureDeleted] looks for the live object. *)
Definition deleteKey (desired : Obj) (sc : StorageCluster.t)
  : NamespacedName.t :=
  NamespacedName.mk (GetObjectMeta desired).(ObjectMeta.Name)
                    (StorageCluster.Namespace sc).

(** A live object that is marked for deletion is not restored: the
    pending-deletion error comes back, the fetch is the only call, and
    the cluster is as the fetch left it. *)
Definition RejectsPendingDeletion : Prop :=
  forall r instance st desired existing ts st',
    nfsNotEnabled instance = false ->
    build r instance = Ok desired ->
    Client.Get r.(StorageClusterReconciler.Client)
               (ObjectKeyFromObject desired) st = (Ok existing, st') ->
    (GetObjectMeta existing).(ObjectMeta.DeletionTimestamp) = Some ts ->
    ensureCreated r instance (mkWorld st []) =
      ((Result.zero,
        Some (errMarkedForDeletion (GetObjectMeta existing).(ObjectMeta.Name))),
       mkWorld st' [CallGet (ObjectKeyFromObject desired) (Ok existing)]).

(** With the feature flag absent or false, [ensureCreated] is
    [ensureDeleted]: same outcome, same calls, same cluster. *)
Definition DisableDrivesDelete : Prop :=
  forall r instance w,
    (instance.(StorageCluster.Spec).(StorageClusterSpec.NFS) = None \/
     exists nfs,
       instance.(StorageCluster.Spec).(StorageClusterSpec.NFS) = Some nfs /\
       nfs.(NFSSpec.Enable) = false) ->
    ensureCreated r instance w = ensureDeleted r instance w.

(** What [ensureDeleted] answers after the re-fetch [out]. *)
Definition afterRefetch (waiting : error) (out : result Obj) : option error :=
  match out with
  | Err err => if IsNotFound err then None else Some waiting
  | Ok _ => Some waiting
  end.

(** Once the delete request went through, the live object is fetched
    again, once, and that fetch decides: gone is success, anything else
    is the waiting error.  No run fetches more than twice. *)
Definition RefetchesOnce (waiting : string -> error) : Prop :=
  (forall r sc st desired found st1 st2 out st3,
     build r sc = Ok desired ->
     Client.Get r.(StorageClusterReconciler.Client)
                (deleteKey desired sc) st = (Ok found, st1) ->
     Client.Delete r.(StorageClusterReconciler.Client) found st1
       = (None, st2) ->
     Client.Get r.(StorageClusterReconciler.Client)
                (deleteKey desired sc) st2 = (out, st3) ->
     ensureDeleted r sc (mkWorld st []) =
       ((Result.zero,
         afterRefetch (waiting (GetObjectMeta desired).(ObjectMeta.Name)) out),
        mkWorld st3 [CallGet (deleteKey desired sc) (Ok found);
                     CallDelete found None;
                     CallGet (deleteKey desired sc) out]))
  /\
  (forall r sc st,
     (length (List.filter isGet
                (calls (ensureDeleted r sc (mkWorld st [])).2)) <= 2)%nat).

(** Nothing to delete is success, and the fetch is the only call. *)
Definition DeleteOfAbsentSucceeds : Prop :=
  forall r sc st desired err st',
    build r sc = Ok desired ->
    Client.Get r.(StorageClusterReconciler.Client)
               (deleteKey desired sc) st = (Err err, st') ->
    IsNotFound err = true ->
    ensureDeleted r sc (mkWorld st []) =
      ((Result.zero, None),
       mkWorld st' [CallGet (deleteKey desired sc) (Err err)]).

(** Both entry points answer the zero [reconcile.Result] on every
    path. *)
Definition NeverRequeues : Prop :=
  forall r instance w,
    (ensureCreated r instance w).1.1 = Result.zero /\
    (ensureDeleted r instance w).1.1 = Result.zero.

(** A fetch that fails with anything but not-found makes
    [ensureCreated] answer success, after that single call. *)
Definition DropsFetchError : Prop :=
  forall r instance st desired err st',
    nfsNotEnabled instance = false ->
    build r instance = Ok desired ->
    Client.Get r.(StorageClusterReconciler.Client)
               (ObjectKeyFromObject desired) st = (Err err, st') ->
    IsNotFound err = false ->
    ensureCreated r instance (mkWorld st []) =
      ((Result.zero, None),
       mkWorld st' [CallGet (ObjectKeyFromObject desired) (Err err)]).

(** A live object that is not marked for deletion is updated with
    [restore desired existing], and the answer of the update is the
    answer of [ensureCreated]. *)
Definition UpdatesFound (restore : Obj -> Obj -> Obj) : Prop :=
  forall r instance st desired existing st1 err st2,
    nfsNotEnabled instance = false ->
    build r instance = Ok desired ->
    Client.Get r.(StorageClusterReconciler.Client)
               (ObjectKeyFromObject desired) st = (Ok existing, st1) ->
    (GetObjectMeta existing).(ObjectMeta.DeletionTimestamp) = None ->
    Client.Update r.(StorageClusterReconciler.Client)
                  (restore desired existing) st1 = (err, st2) ->
    ensureCreated r instance (mkWorld st []) =
      ((Result.zero, err),
       mkWorld st2 [CallGet (ObjectKeyFromObject desired) (Ok existing);
                    CallUpdate (restore desired existing) err]).

(** When the fetch reports not-found the desired object is created as
    built, and the answer of the create is the answer of
    [ensureCreated]. *)
Definition CreatesAbsent : Prop :=
  forall r instance st desired notFound st1 err st2,
    nfsNotEnabled instance = false ->
    build r instance = Ok desired ->
    Client.Get r.(StorageClusterReconciler.Client)
               (ObjectKeyFromObject desired) st = (Err notFound, st1) ->
    IsNotFound notFound = true ->
    Client.Create r.(StorageClusterReconciler.Client) desired st1
      = (err, st2) ->
    ensureCreated r instance (mkWorld st []) =
      ((Result.zero, err),
       mkWorld st2 [CallGet (ObjectKeyFromObject desired) (Err notFound);
                    CallCreate desired err]).

(** An error of the builder is the answer, and nothing is called. *)
Definition SurfacesBuilderError : Prop :=
  forall r instance st err,
    nfsNotEnabled instance = false ->
    build r instance = Err err ->
    ensureCreated r instance (mkWorld st []) =
      ((Result.zero, Some err), mkWorld st []).

(** A freshly built object is not marked for deletion. *)
Definition BuildsUnmarked : Prop :=
  forall r sc desired,
    build r sc = Ok desired ->
    (GetObjectMeta desired).(ObjectMeta.DeletionTimestamp) = None.

(** [ensureDeleted] asks for the delete whenever the live object is
    found, whatever its deletion timestamp. *)
Definition DeletesWhateverTheTimestamp : Prop :=
  forall r sc st desired found st1,
    build r sc = Ok desired ->
    Client.Get r.(StorageClusterReconciler.Client)
               (deleteKey desired sc) st = (Ok found, st1) ->
    exists err rest,
      calls (ensureDeleted r sc (mkWorld st [])).2 =
        CallGet (deleteKey desired sc) (Ok found)
        :: CallDelete found err :: rest.

End Contracts.

(** Running [ensureCreated] twice on the object store: the second run
    leaves the store as the first run left it and answers the same, and
    the only change it can ask for is an update that submits the object
    the store already holds. *)
Definition ConvergesIdempotently {Obj : Type} `{Object Obj}
  (build : StorageClusterReconciler.t Obj (gmap NamespacedName.t Obj) ->
           StorageCluster.t -> result Obj)
  (ensureCreated :
     StorageClusterReconciler.t Obj (gmap NamespacedName.t Obj) ->
     StorageCluster.t -> M Obj (gmap NamespacedName.t Obj) Outcome) : Prop :=
  forall now scheme instance (st : gmap NamespacedName.t Obj),
    nfsNotEnabled instance = false ->
    Store.wellKeyed st ->
    let r := StorageClusterReconciler.mk (Store.client now) scheme in
    let first := ensureCreated r instance (mkWorld st []) in
    let second := ensureCreated r instance (mkWorld (cluster first.2) []) in
    cluster second.2 = cluster first.2 /\
    second.1 = first.1 /\
    forall c, In c (calls second.2) -> isMutating c = true ->
      exists live,
        cluster first.2 !! ObjectKeyFromObject live = Some live /\
        c = CallUpdate live None.

(** ** Further contracts: the builders and the remaining paths *)

(** The controller reference [SetControllerReference] makes for the
    parent [owner] whose kind the scheme resolves to [gvk]. *)
Definition controllerRef (gvk : GroupVersionKind.t) (owner : StorageCluster.t)
  : OwnerReference.t :=
  OwnerReference.mk
    (GroupVersionKind.GroupVersionString gvk)
    gvk.(GroupVersionKind.Kind)
    (StorageCluster.Name owner)
    owner.(StorageCluster.ObjectMeta).(ObjectMeta.UID)
    (Some true) (Some true).

Section MoreContracts.
Context {Obj St : Type} `{Object Obj}.
Variable build :
  StorageClusterReconciler.t Obj St -> StorageCluster.t -> result Obj.
Variables ensureCreated ensureDeleted :
  StorageClusterReconciler.t Obj St -> StorageCluster.t -> M Obj St Outcome.

(** What is built lives in the namespace of the parent and carries
    nothing but its name, that namespace and one owner reference, the
    controller reference to the parent. *)
Definition BuildsOwnedByParent : Prop :=
  forall r sc desired,
    build r sc = Ok desired ->
    exists gvk,
      r.(StorageClusterReconciler.Scheme).(Scheme.StorageClusterKinds) = [gvk] /\
      GetObjectMeta desired =
        ObjectMeta.setOwnerReferences [controllerRef gvk sc]
          (ObjectMeta.named (GetObjectMeta desired).(ObjectMeta.Name)
                            (StorageCluster.Namespace sc)).

(** The builder fails exactly when the kind of the parent cannot be
    read off the scheme, and then with the error of that lookup. *)
Definition FailsOnlyOnScheme : Prop :=
  forall r sc err,
    build r sc = Err err <->
    GVKForObject r.(StorageClusterReconciler.Scheme) = Err err.

(** An error of the builder is the answer of both entry points, whatever
    the feature flag, and the world is left as it was. *)
Definition SurfacesBuilderErrorEverywhere : Prop :=
  forall r instance w err,
    build r instance = Err err ->
    ensureCreated r instance w = ((Result.zero, Some err), w) /\
    ensureDeleted r instance w = ((Result.zero, Some err), w).

(** With the feature off [ensureCreated] is [ensureDeleted]; the flag
    as the code tests it. *)
Definition DelegatesWhenOff : Prop :=
  forall r instance w,
    nfsNotEnabled instance = true ->
    ensureCreated r instance w = ensureDeleted r instance w.

(** A first fetch that fails with anything but not-found ends
    [ensureDeleted]: the answer is a new error made of [unable], the
    name of the desired object and the text of the fetch error, and
    nothing is deleted. *)
Definition ReportsFetchFailure (unable : string) : Prop :=
  forall r sc st desired err st',
    build r sc = Ok desired ->
    Client.Get r.(StorageClusterReconciler.Client)
               (deleteKey desired sc) st = (Err err, st') ->
    IsNotFound err = false ->
    ensureDeleted r sc (mkWorld st []) =
      ((Result.zero,
        Some (errorString
                (unable +:+ (GetObjectMeta desired).(ObjectMeta.Name)
                 +:+ ": " +:+ Error err))),
       mkWorld st' [CallGet (deleteKey desired sc) (Err err)]).

(** A delete that fails ends [ensureDeleted]: the answer is a new error
    made of [failed], the name of the fetched object and the text of
    the delete error, and there is no re-fetch. *)
Definition ReportsDeleteFailure (failed : string) : Prop :=
  forall r sc st desired found st1 err st2,
    build r sc = Ok desired ->
    Client.Get r.(StorageClusterReconciler.Client)
               (deleteKey desired sc) st = (Ok found, st1) ->
    Client.Delete r.(StorageClusterReconciler.Client) found st1
      = (Some err, st2) ->
    ensureDeleted r sc (mkWorld st []) =
      ((Result.zero,
        Some (errorString
                (failed +:+ (GetObjectMeta found).(ObjectMeta.Name)
                 +:+ ": " +:+ Error err))),
       mkWorld st2 [CallGet (deleteKey desired sc) (Ok found);
                    CallDelete found (Some err)]).

(** [ensureDeleted] makes at most three calls, never a create or an
    update, and what it asks to delete is the very object its first
    call fetched. *)
Definition OnlyFetchesAndDeletes : Prop :=
  forall r sc st,
    let made := calls (ensureDeleted r sc (mkWorld st [])).2 in
    (length made <= 3)%nat /\
    (forall obj err,
       ~ In (CallCreate obj err) made /\ ~ In (CallUpdate obj err) made) /\
    (forall obj err,
       In (CallDelete obj err) made ->
       exists key, head made = Some (CallGet key (Ok obj))).

(** With the feature on, [ensureCreated] makes at most two calls of
    which at most one asks for a change, never a delete, and what it
    creates is what the builder built. *)
Definition NeverDeletesWhenOn : Prop :=
  forall r instance st,
    nfsNotEnabled instance = false ->
    let made := calls (ensureCreated r instance (mkWorld st [])).2 in
    (length made <= 2)%nat /\
    (length (List.filter isMutating made) <= 1)%nat /\
    (forall obj err, ~ In (CallDelete obj err) made) /\
    (forall obj err,
       In (CallCreate obj err) made -> build r instance = Ok obj).

(** The update path copies the whole spec: what is submitted has the
    spec and the owner references of the desired object, and the status
    and the rest of the metadata of the live one. *)
Definition OverwritesSpec {S T : Type} (spec : Obj -> S) (status : Obj -> T)
  : Prop :=
  forall r instance st desired existing st1,
    nfsNotEnabled instance = false ->
    build r instance = Ok desired ->
    Client.Get r.(StorageClusterReconciler.Client)
               (ObjectKeyFromObject desired) st = (Ok existing, st1) ->
    (GetObjectMeta existing).(ObjectMeta.DeletionTimestamp) = None ->
    exists submitted err,
      calls (ensureCreated r instance (mkWorld st [])).2 =
        [CallGet (ObjectKeyFromObject desired) (Ok existing);
         CallUpdate submitted err] /\
      spec submitted = spec desired /\
      status submitted = status existing /\
      (GetObjectMeta submitted).(ObjectMeta.OwnerReferences) =
        (GetObjectMeta desired).(ObjectMeta.OwnerReferences) /\
      ObjectMeta.setOwnerReferences [] (GetObjectMeta submitted) =
        ObjectMeta.setOwnerReferences [] (GetObjectMeta existing).

(** Everything the proofs about the object store need to know of one
    reconciler: its paths over any client, what its builder builds, and
    how its way of restoring treats the metadata. *)
Record Paths (restore : Obj -> Obj -> Obj) (waiting : string -> error)
  (failed : string) : Prop := {
  paths_pending : RejectsPendingDeletion build ensureCreated;
  paths_updates : UpdatesFound build ensureCreated restore;
  paths_creates : CreatesAbsent build ensureCreated;
  paths_off : DelegatesWhenOff;
  paths_builder_error : SurfacesBuilderErrorEverywhere;
  paths_absent : DeleteOfAbsentSucceeds build ensureDeleted;
  paths_refetch : RefetchesOnce build ensureDeleted waiting;
  paths_delete_failure : ReportsDeleteFailure failed;
  paths_owned : BuildsOwnedByParent;
  paths_meta : forall m (obj : Obj), GetObjectMeta (SetObjectMeta m obj) = m;
  paths_restore_owner : forall desired existing,
    (GetObjectMeta (restore desired existing)).(ObjectMeta.OwnerReferences) =
    (GetObjectMeta desired).(ObjectMeta.OwnerReferences);
  paths_restore_rest : forall desired existing,
    ObjectMeta.setOwnerReferences [] (GetObjectMeta (restore desired existing)) =
    ObjectMeta.setOwnerReferences [] (GetObjectMeta existing);
}.

End MoreContracts.

(** ** Contracts on the object store *)

Section StoreContracts.
Context {Obj : Type} `{Object Obj}.
Variable build :
  StorageClusterReconciler.t Obj (gmap NamespacedName.t Obj) ->
  StorageCluster.t -> result Obj.
Variables ensureCreated ensureDeleted :
  StorageClusterReconciler.t Obj (gmap NamespacedName.t Obj) ->
  StorageCluster.t -> M Obj (gmap NamespacedName.t Obj) Outcome.

(** The reconciler that works on the object store. *)
Definition onStore (now : Time) (scheme : Scheme.t)
  : StorageClusterReconciler.t Obj (gmap NamespacedName.t Obj) :=
  StorageClusterReconciler.mk (Store.client now) scheme.

(** On a cluster that does not hold the object, [ensureCreated]
    succeeds, and a fetch afterwards answers the object as built: this
    is what the tests of the package check after a reconcile. *)
Definition CreatesOnFreshCluster : Prop :=
  forall now scheme instance (st : gmap NamespacedName.t Obj) desired,
    nfsNotEnabled instance = false ->
    build (onStore now scheme) instance = Ok desired ->
    st !! ObjectKeyFromObject desired = None ->
    let run := ensureCreated (onStore now scheme) instance (mkWorld st []) in
    run.1 = (Result.zero, None) /\
    cluster run.2 = <[ObjectKeyFromObject desired := desired]> st /\
    Client.Get (Store.client now) (ObjectKeyFromObject desired) (cluster run.2)
      = (Ok desired, cluster run.2).

(** On a cluster that holds the object, not marked for deletion,
    [ensureCreated] succeeds and the cluster then holds the restored
    object in its place. *)
Definition RestoresLiveObject (restore : Obj -> Obj -> Obj) : Prop :=
  forall now scheme instance (st : gmap NamespacedName.t Obj) desired existing,
    nfsNotEnabled instance = false ->
    build (onStore now scheme) instance = Ok desired ->
    Store.wellKeyed st ->
    st !! ObjectKeyFromObject desired = Some existing ->
    (GetObjectMeta existing).(ObjectMeta.DeletionTimestamp) = None ->
    let run := ensureCreated (onStore now scheme) instance (mkWorld st []) in
    run.1 = (Result.zero, None) /\
    cluster run.2 =
      <[ObjectKeyFromObject desired := restore desired existing]> st /\
    (GetObjectMeta (restore desired existing)).(ObjectMeta.OwnerReferences) =
      (GetObjectMeta desired).(ObjectMeta.OwnerReferences).

(** Neither entry point touches any other object of the cluster. *)
Definition TouchesOnlyItsObject : Prop :=
  forall now scheme instance (st : gmap NamespacedName.t Obj) desired other,
    build (onStore now scheme) instance = Ok desired ->
    Store.wellKeyed st ->
    other <> ObjectKeyFromObject desired ->
    cluster (ensureCreated (onStore now scheme) instance (mkWorld st [])).2
      !! other = st !! other /\
    cluster (ensureDeleted (onStore now scheme) instance (mkWorld st [])).2
      !! other = st !! other.

(** [ensureDeleted] answers success exactly when the object is gone from
    the cluster afterwards. *)
Definition SucceedsExactlyWhenGone : Prop :=
  forall now scheme sc (st : gmap NamespacedName.t Obj) desired,
    build (onStore now scheme) sc = Ok desired ->
    Store.wellKeyed st ->
    let run := ensureDeleted (onStore now scheme) sc (mkWorld st []) in
    run.1.2 = None <->
    cluster run.2 !! ObjectKeyFromObject desired = None.

(** Once [ensureDeleted] has succeeded, doing it again succeeds with a
    single fetch and changes nothing. *)
Definition DeletesIdempotently : Prop :=
  forall now scheme sc (st : gmap NamespacedName.t Obj) desired,
    build (onStore now scheme) sc = Ok desired ->
    Store.wellKeyed st ->
    let first := ensureDeleted (onStore now scheme) sc (mkWorld st []) in
    first.1.2 = None ->
    ensureDeleted (onStore now scheme) sc (mkWorld (cluster first.2) []) =
      ((Result.zero, None),
       mkWorld (cluster first.2)
         [CallGet (ObjectKeyFromObject desired)
                  (Err (Store.errNotFound (ObjectKeyFromObject desired)))]).

(** What [ensureCreated] created on a cluster that did not hold the
    object, [ensureDeleted] removes again: both succeed and the cluster
    is back where it was. *)
Definition DeleteUndoesCreate : Prop :=
  forall now scheme instance (st : gmap NamespacedName.t Obj) desired,
    nfsNotEnabled instance = false ->
    build (onStore now scheme) instance = Ok desired ->
    st !! ObjectKeyFromObject desired = None ->
    let first := ensureCreated (onStore now scheme) instance (mkWorld st []) in
    let second :=
      ensureDeleted (onStore now scheme) instance
        (mkWorld (cluster first.2) []) in
    first.1 = (Result.zero, None) /\
    second.1 = (Result.zero, None) /\
    cluster second.2 = st.

(** An object held back by a finalizer outlives [ensureDeleted], marked
    for deletion; an [ensureCreated] that follows answers the
    pending-deletion error, makes no call but its fetch, and leaves the
    object marked. *)
Definition NeverResurrects : Prop :=
  forall now scheme instance (st : gmap NamespacedName.t Obj) desired existing,
    nfsNotEnabled instance = false ->
    build (onStore now scheme) instance = Ok desired ->
    Store.wellKeyed st ->
    st !! ObjectKeyFromObject desired = Some existing ->
    (GetObjectMeta existing).(ObjectMeta.Finalizers) <> [] ->
    let first := ensureDeleted (onStore now scheme) instance (mkWorld st []) in
    let second :=
      ensureCreated (onStore now scheme) instance
        (mkWorld (cluster first.2) []) in
    first.1.2 <> None /\
    exists live,
      cluster first.2 !! ObjectKeyFromObject desired = Some live /\
      (GetObjectMeta live).(ObjectMeta.DeletionTimestamp) <> None /\
      second =
        ((Result.zero,
          Some (errMarkedForDeletion
                  (GetObjectMeta existing).(ObjectMeta.Name))),
         mkWorld (cluster first.2)
                 [CallGet (ObjectKeyFromObject desired) (Ok live)]).

End StoreContracts.

(** ** Concrete parents and clusters *)

Module Fixture.

#[local] Instance collaborators : Collaborators := {|
  getPlacement := fun _ _ => Placement.mk [] [];
  GetDaemonResources := fun _ _ => ResourceRequirements.mk ∅ ∅;
  getFailureDomain := fun _ => "host";
  generateCephReplicatedSpec := fun _ _ => ReplicatedSpec.mk 3 true 1;
  openshiftUserCritical := "openshift-user-critical";
  generateNameForCephNFSBlockPool :=
    fun sc => StorageCluster.Name sc +:+ "-cephnfs-builtin-pool";
|}.

Definition scheme : Scheme.t :=
  Scheme.mk [GroupVersionKind.mk "ocs.openshift.io" "v1" "StorageCluster"].

(** A scheme in which the parent's type was never registered. *)
Definition emptyScheme : Scheme.t := Scheme.mk [].

Definition parentMeta : ObjectMeta.t :=
  ObjectMeta.mk "ocsinit" "openshift-storage" "uid-1" "7" 1 100 None ∅ ∅ [] [].

(** A parent with [spec.nfs.enable: true]. *)
Definition ocsinit : StorageCluster.t :=
  StorageCluster.mk parentMeta
    (StorageClusterSpec.mk (Some (NFSSpec.mk true)) None ∅ ∅ "" false).

(** The same parent with the feature switched off. *)
Definition ocsinitDisabled : StorageCluster.t :=
  StorageCluster.mk parentMeta
    (StorageClusterSpec.mk (Some (NFSSpec.mk false)) None ∅ ∅ "" false).

(** The same parent later in its life: no [nfs] section, another
    resource version and generation, a label, and other settings that
    none of the NFS resources depend on. *)
Definition ocsinitNoNFS : StorageCluster.t :=
  StorageCluster.mk
    (ObjectMeta.mk "ocsinit" "openshift-storage" "uid-1" "8" 2 100 None
                   (<["env" := "prod"]> ∅) ∅ [] [])
    (StorageClusterSpec.mk None None ∅ ∅ "/var/lib/rook" true).

Definition internalError : error :=
  StatusError StatusReasonInternalError "etcdserver: request timed out".

(** A live NFS Service as the API server keeps it: it has a cluster IP,
    a UID and a finalizer, and its ports drifted. *)
Definition liveService : Service.t :=
  Service.mk
    (ObjectMeta.mk "ocsinit-cephnfs-service" "openshift-storage" "uid-9" "41"
                   1 120 None (<["team" := "storage"]> ∅) ∅ []
                   ["foregroundDeletion"])
    (ServiceSpec.mk [ServicePort.mk "nfs" "TCP" 111 (IntOrString.FromInt 111) 0]
                    ∅ "172.30.7.9" ["172.30.7.9"] "ClusterIP" [] "None")
    (ServiceStatus.mk []).

(** The same Service once a delete was accepted for it. *)
Definition terminatingService : Service.t :=
  Service.setObjectMeta
    (ObjectMeta.setDeletionTimestamp (Some 500) liveService.(Service.ObjectMeta))
    liveService.

Definition liveCephNFS : CephNFS.t :=
  CephNFS.mk
    (ObjectMeta.mk "ocsinit-cephnfs" "openshift-storage" "uid-5" "12" 1 110
                   None ∅ ∅ [] ["cephnfs.ceph.rook.io"])
    (NFSGaneshaSpec.mk
       (GaneshaServerSpec.mk 2 (Placement.mk [] []) (ResourceRequirements.mk ∅ ∅)
                             "" "debug"))
    "Ready".

Definition terminatingCephNFS : CephNFS.t :=
  CephNFS.setObjectMeta
    (ObjectMeta.setDeletionTimestamp (Some 500) liveCephNFS.(CephNFS.ObjectMeta))
    liveCephNFS.

(** The CephNFS of cephnetworkfilesystem.go, already being deleted. *)
Definition terminatingNetworkFilesystem : CephNFS.t :=
  CephNFS.mk
    (ObjectMeta.mk "ocsinit-cephnetworkfilesystem" "openshift-storage" "uid-6"
                   "13" 1 110 (Some 500) ∅ ∅ [] ["cephnfs.ceph.rook.io"])
    (NFSGaneshaSpec.mk
       (GaneshaServerSpec.mk 1 (Placement.mk [] []) (ResourceRequirements.mk ∅ ∅)
                             "openshift-user-critical" ""))
    "Ready".

Definition serviceKey : NamespacedName.t :=
  NamespacedName.mk "ocsinit-cephnfs-service" "openshift-storage".

Definition cephNFSKey : NamespacedName.t :=
  NamespacedName.mk "ocsinit-cephnfs" "openshift-storage".

Definition networkFilesystemKey : NamespacedName.t :=
  NamespacedName.mk "ocsinit-cephnetworkfilesystem" "openshift-storage".

(** The owner reference every object built for [ocsinit] carries. *)
Definition ownedByOcsinit : OwnerReference.t :=
  OwnerReference.mk "ocs.openshift.io/v1" "StorageCluster" "ocsinit" "uid-1"
                    (Some true) (Some true).

(** The Service that nfsservice.go builds for [ocsinit]. *)
Definition desiredService : Service.t :=
  Service.mk
    (ObjectMeta.mk "ocsinit-cephnfs-service" "openshift-storage" "" "" 0 0
                   None ∅ ∅ [ownedByOcsinit] [])
    (ServiceSpec.mk
       [ServicePort.mk "nfs" "TCP" 2049 (IntOrString.FromInt 2049) 0]
       (<["app" := "rook-ceph-nfs"]>
          (<["ceph_nfs" := "ocsinit-cephnetworkfilesystem"]> ∅))
       "" [] "" [] "ClientIP")
    (ServiceStatus.mk []).

(** The live Service once [ensureCreated] restored it. *)
Definition restoredService : Service.t :=
  Service.mk
    (ObjectMeta.mk "ocsinit-cephnfs-service" "openshift-storage" "uid-9" "41"
                   1 120 None (<["team" := "storage"]> ∅) ∅ [ownedByOcsinit]
                   ["foregroundDeletion"])
    (ServiceSpec.mk
       [ServicePort.mk "nfs" "TCP" 2049 (IntOrString.FromInt 2049) 0]
       (<["app" := "rook-ceph-nfs"]>
          (<["ceph_nfs" := "ocsinit-cephnetworkfilesystem"]> ∅))
       "172.30.7.9" ["172.30.7.9"] "ClusterIP" [] "ClientIP")
    (ServiceStatus.mk []).

(** Reconcilers over the object store, and over an API server that
    cannot be reached. *)
Definition serviceReconciler
  : StorageClusterReconciler.t Service.t (gmap NamespacedName.t Service.t) :=
  StorageClusterReconciler.mk (Store.client 500) scheme.

Definition cephNFSReconciler
  : StorageClusterReconciler.t CephNFS.t (gmap NamespacedName.t CephNFS.t) :=
  StorageClusterReconciler.mk (Store.client 500) scheme.

Definition cutOffServiceReconciler : StorageClusterReconciler.t Service.t unit :=
  StorageClusterReconciler.mk (unreachable internalError) scheme.

Definition cutOffCephNFSReconciler : StorageClusterReconciler.t CephNFS.t unit :=
  StorageClusterReconciler.mk (unreachable internalError) scheme.

End Fixture.

(** ** Further concrete clients, parents and objects *)

Module Scenario.

(** A client that reads the object store and is refused every change,
    as when the operator may get but not write. *)
Definition readOnly {Obj : Type} (err : error)
  : Client.t Obj (gmap NamespacedName.t Obj) :=
  Client.mk Store.Get
            (fun _ st => (Some err, st))
            (fun _ st => (Some err, st))
            (fun _ st => (Some err, st)).

Definition readOnlyServiceReconciler
  : StorageClusterReconciler.t Service.t (gmap NamespacedName.t Service.t) :=
  StorageClusterReconciler.mk (readOnly Fixture.internalError) Fixture.scheme.

(** A reconciler whose scheme does not know the kind of the parent. *)
Definition unregisteredServiceReconciler
  : StorageClusterReconciler.t Service.t (gmap NamespacedName.t Service.t) :=
  StorageClusterReconciler.mk (Store.client 500) Fixture.emptyScheme.

Definition errNotRegistered : error :=
  errorString "no kind is registered for the type v1.StorageCluster in scheme".

(** The parent [ocsinit] with host networking switched on. *)
Definition ocsinitHostNetwork : StorageCluster.t :=
  StorageCluster.mk
    (ObjectMeta.mk "ocsinit" "openshift-storage" "uid-1" "9" 3 100 None ∅ ∅
                   [] [])
    (StorageClusterSpec.mk (Some (NFSSpec.mk true))
                           (Some (NetworkSpec.mk true)) ∅ ∅ "" false).

(** The Service that cephnfs.go builds for [ocsinit]. *)
Definition desiredServiceOfCephNFS : Service.t :=
  Service.mk
    (ObjectMeta.mk "ocsinit-cephnfs-service" "openshift-storage" "" "" 0 0
                   None ∅ ∅ [Fixture.ownedByOcsinit] [])
    (ServiceSpec.mk
       [ServicePort.mk "nfs" "" 2049 IntOrString.zero 0]
       (<["app" := "rook-ceph-nfs"]> (<["ceph_nfs" := "ocsinit-cephnfs"]> ∅))
       "" [] "" [] "ClientIP")
    (ServiceStatus.mk []).

(** The CephNFS that cephnetworkfilesystem.go builds for [ocsinit]. *)
Definition desiredNetworkFilesystem : CephNFS.t :=
  CephNFS.mk
    (ObjectMeta.mk "ocsinit-cephnetworkfilesystem" "openshift-storage" "" ""
                   0 0 None ∅ ∅ [Fixture.ownedByOcsinit] [])
    (NFSGaneshaSpec.mk
       (GaneshaServerSpec.mk 1 (Placement.mk [] []) (ResourceRequirements.mk ∅ ∅)
                             "openshift-user-critical" ""))
    "".

(** A Service of somebody else in the same namespace. *)
Definition otherKey : NamespacedName.t :=
  NamespacedName.mk "registry" "openshift-storage".

Definition otherService : Service.t :=
  Service.mk
    (ObjectMeta.mk "registry" "openshift-storage" "uid-3" "5" 1 90 None ∅ ∅
                   [] [])
    (ServiceSpec.mk [ServicePort.mk "https" "TCP" 443 (IntOrString.FromInt 443) 0]
                    ∅ "172.30.0.4" ["172.30.0.4"] "ClusterIP" [] "None")
    (ServiceStatus.mk []).

(** A cluster that holds the drifted NFS Service and that other
    Service. *)
Definition twoServices : gmap NamespacedName.t Service.t :=
  <[Fixture.serviceKey := Fixture.liveService]> {[otherKey := otherService]}.

End Scenario.

(** * Proofs *)

(** ** Running the reconcilers symbolically *)

Ltac reconciler_unfold :=
  unfold ocsNFSService.ensureCreated, ocsNFSService.ensureDeleted,
    ocsCephNetworkFilesystem.ensureCreated,
    ocsCephNetworkFilesystem.ensureDeleted,
    ocsCephNFS.ensureCreated, ocsCephNFS.ensureDeleted,
    ocsCephNFSBlockPool.ensureCreated, ocsCephNFSBlockPool.ensureDeleted,
    ocsCephNFSService.ensureCreated, ocsCephNFSService.ensureDeleted,
    deleteKey, ObjectKeyFromObject, afterRefetch, errWaiting,
    restoreNFSService, restoreCephNFSService, restoreCephNFS,
    restoreCephBlockPool,
    bind, ret, Client_Get, Client_Create, Client_Update, Client_Delete in *.

Ltac reconciler_simpl :=
  cbv [GetObjectMeta Service_Object CephNFS_Object CephBlockPool_Object
       Service.Name Service.Namespace Service.DeletionTimestamp
       Service.GetDeletionTimestamp Service.setObjectMeta Service.setSpec
       Service.ObjectMeta Service.Spec Service.Status
       ServiceSpec.setPorts ServiceSpec.setSelector
       ServiceSpec.setSessionAffinity ServiceSpec.Ports ServiceSpec.Selector
       ServiceSpec.ClusterIP ServiceSpec.ClusterIPs ServiceSpec.Type_
       ServiceSpec.ExternalIPs ServiceSpec.SessionAffinity
       CephNFS.Name CephNFS.Namespace CephNFS.DeletionTimestamp
       CephNFS.GetDeletionTimestamp CephNFS.setObjectMeta CephNFS.setSpec
       CephNFS.ObjectMeta CephNFS.Spec CephNFS.Status
       CephBlockPool.Name CephBlockPool.Namespace
       CephBlockPool.DeletionTimestamp CephBlockPool.GetDeletionTimestamp
       CephBlockPool.setObjectMeta CephBlockPool.setSpec
       CephBlockPool.ObjectMeta CephBlockPool.Spec CephBlockPool.Status
       Time_IsZero cluster calls fst snd app] in *.

(** Replace every call whose answer is a hypothesis by that answer. *)
Ltac use_answers :=
  repeat (match goal with
          | H : ?x = _ |- context [?x] => rewrite H
          end; reconciler_simpl).

Ltac run_eq :=
  intros; reconciler_unfold; reconciler_simpl; use_answers;
  repeat case_match; try reflexivity.

(** Take a builder that answered [Ok] apart. *)
Ltac invert_builder H :=
  unfold ocsNFSService.newNFSService,
    ocsCephNetworkFilesystem.newCephNetworkFilesystemInstance,
    ocsCephNFS.newCephNFSInstance,
    ocsCephNFSBlockPool.newCephNFSBlockPoolInstance,
    ocsCephNFSService.newNFSService, SetControllerReference in H;
  repeat case_match; simplify_eq.

(** ** The builders *)

Lemma newNFSService_unmarked St :
  BuildsUnmarked (@ocsNFSService.newNFSService St).
Proof. intros r sc desired Hb. invert_builder Hb; reflexivity. Qed.

Lemma newCephNetworkFilesystemInstance_unmarked `{C : Collaborators} St :
  BuildsUnmarked
    (@ocsCephNetworkFilesystem.newCephNetworkFilesystemInstance _ St).
Proof. intros r sc desired Hb. invert_builder Hb; reflexivity. Qed.

Lemma newCephNFSInstance_unmarked `{C : Collaborators} St :
  BuildsUnmarked (@ocsCephNFS.newCephNFSInstance _ St).
Proof. intros r sc desired Hb. invert_builder Hb; reflexivity. Qed.

Lemma newCephNFSBlockPoolInstance_unmarked `{C : Collaborators} St :
  BuildsUnmarked (@ocsCephNFSBlockPool.newCephNFSBlockPoolInstance _ St).
Proof. intros r sc desired Hb. invert_builder Hb; reflexivity. Qed.

Lemma newNFSService_of_cephnfs_unmarked St :
  BuildsUnmarked (@ocsCephNFSService.newNFSService St).
Proof. intros r sc desired Hb. invert_builder Hb; reflexivity. Qed.

(** Note the builder's verdict on the deletion timestamp of what it
    built, so that [use_answers] finds it. *)
Ltac note_unmarked :=
  match goal with
  | Hb : ocsNFSService.newNFSService _ _ = Ok _ |- _ =>
      pose proof (newNFSService_unmarked _ _ _ _ Hb)
  | Hb : ocsCephNetworkFilesystem.newCephNetworkFilesystemInstance _ _ = Ok _
    |- _ =>
      pose proof (newCephNetworkFilesystemInstance_unmarked _ _ _ _ Hb)
  | Hb : ocsCephNFS.newCephNFSInstance _ _ = Ok _ |- _ =>
      pose proof (newCephNFSInstance_unmarked _ _ _ _ Hb)
  | Hb : ocsCephNFSBlockPool.newCephNFSBlockPoolInstance _ _ = Ok _ |- _ =>
      pose proof (newCephNFSBlockPoolInstance_unmarked _ _ _ _ Hb)
  | Hb : ocsCephNFSService.newNFSService _ _ = Ok _ |- _ =>
      pose proof (newNFSService_of_cephnfs_unmarked _ _ _ _ Hb)
  end.

(** ** The paths of [ensureCreated] *)

(** X5: with the feature on, when the live object is found and is not
    marked for deletion, [ensureCreated] submits the restored object to
    [Update] and answers what [Update] answered, error or not; the
    calls are that fetch and that update.  All five reconcilers, over
    any client. *)
Lemma ensureCreated_updates_found `{C : Collaborators} St :
  UpdatesFound (@ocsNFSService.newNFSService St)
               (@ocsNFSService.ensureCreated St) restoreNFSService /\
  UpdatesFound (@ocsCephNetworkFilesystem.newCephNetworkFilesystemInstance _ St)
               (@ocsCephNetworkFilesystem.ensureCreated _ St) restoreCephNFS /\
  UpdatesFound (@ocsCephNFS.newCephNFSInstance _ St)
               (@ocsCephNFS.ensureCreated _ St) restoreCephNFS /\
  UpdatesFound (@ocsCephNFSBlockPool.newCephNFSBlockPoolInstance _ St)
               (@ocsCephNFSBlockPool.ensureCreated _ St) restoreCephBlockPool /\
  UpdatesFound (@ocsCephNFSService.newNFSService St)
               (@ocsCephNFSService.ensureCreated St) restoreCephNFSService.
Proof. repeat split; unfold UpdatesFound; run_eq. Qed.

(** X4: with the feature on, when the fetch reports not-found,
    [ensureCreated] creates the object exactly as the builder built it
    and answers what [Create] answered, error or not; the calls are
    that fetch and that create.  All five reconcilers, over any
    client. *)
Lemma ensureCreated_creates_absent `{C : Collaborators} St :
  CreatesAbsent (@ocsNFSService.newNFSService St)
                (@ocsNFSService.ensureCreated St) /\
  CreatesAbsent (@ocsCephNetworkFilesystem.newCephNetworkFilesystemInstance _ St)
                (@ocsCephNetworkFilesystem.ensureCreated _ St) /\
  CreatesAbsent (@ocsCephNFS.newCephNFSInstance _ St)
                (@ocsCephNFS.ensureCreated _ St) /\
  CreatesAbsent (@ocsCephNFSBlockPool.newCephNFSBlockPoolInstance _ St)
                (@ocsCephNFSBlockPool.ensureCreated _ St) /\
  CreatesAbsent (@ocsCephNFSService.newNFSService St)
                (@ocsCephNFSService.ensureCreated St).
Proof. repeat split; unfold CreatesAbsent; run_eq. Qed.

Lemma ensureCreated_surfaces_builder_error `{C : Collaborators} St :
  SurfacesBuilderError (@ocsNFSService.newNFSService St)
                       (@ocsNFSService.ensureCreated St) /\
  SurfacesBuilderError
    (@ocsCephNetworkFilesystem.newCephNetworkFilesystemInstance _ St)
    (@ocsCephNetworkFilesystem.ensureCreated _ St) /\
  SurfacesBuilderError (@ocsCephNFS.newCephNFSInstance _ St)
                       (@ocsCephNFS.ensureCreated _ St) /\
  SurfacesBuilderError (@ocsCephNFSBlockPool.newCephNFSBlockPoolInstance _ St)
                       (@ocsCephNFSBlockPool.ensureCreated _ St) /\
  SurfacesBuilderError (@ocsCephNFSService.newNFSService St)
                       (@ocsCephNFSService.ensureCreated St).
Proof. repeat split; unfold SurfacesBuilderError; run_eq. Qed.

Lemma ensureCreated_drops_fetch_error `{C : Collaborators} St :
  DropsFetchError (@ocsNFSService.newNFSService St)
                  (@ocsNFSService.ensureCreated St) /\
  DropsFetchError
    (@ocsCephNetworkFilesystem.newCephNetworkFilesystemInstance _ St)
    (@ocsCephNetworkFilesystem.ensureCreated _ St) /\
  DropsFetchError (@ocsCephNFS.newCephNFSInstance _ St)
                  (@ocsCephNFS.ensureCreated _ St) /\
  DropsFetchError (@ocsCephNFSBlockPool.newCephNFSBlockPoolInstance _ St)
                  (@ocsCephNFSBlockPool.ensureCreated _ St) /\
  DropsFetchError (@ocsCephNFSService.newNFSService St)
                  (@ocsCephNFSService.ensureCreated St).
Proof. repeat split; unfold DropsFetchError; run_eq. Qed.

(** ** The paths of [ensureDeleted] *)

Lemma ensureDeleted_deletes_whatever_the_timestamp `{C : Collaborators} St :
  DeletesWhateverTheTimestamp (@ocsNFSService.newNFSService St)
                              (@ocsNFSService.ensureDeleted St) /\
  DeletesWhateverTheTimestamp
    (@ocsCephNetworkFilesystem.newCephNetworkFilesystemInstance _ St)
    (@ocsCephNetworkFilesystem.ensureDeleted _ St) /\
  DeletesWhateverTheTimestamp (@ocsCephNFS.newCephNFSInstance _ St)
                              (@ocsCephNFS.ensureDeleted _ St) /\
  DeletesWhateverTheTimestamp
    (@ocsCephNFSBlockPool.newCephNFSBlockPoolInstance _ St)
    (@ocsCephNFSBlockPool.ensureDeleted _ St) /\
  DeletesWhateverTheTimestamp (@ocsCephNFSService.newNFSService St)
                              (@ocsCephNFSService.ensureDeleted St).
Proof.
  repeat split; unfold DeletesWhateverTheTimestamp; intros; note_unmarked;
    reconciler_unfold; reconciler_simpl; use_answers;
    (match goal with
     | |- context [Client.Delete ?c ?o ?s] =>
         destruct (Client.Delete c o s) as [[e|] s2]
     end; reconciler_simpl; [by eexists _, _ |]);
    (match goal with
     | |- context [Client.Get ?c ?k ?s] =>
         destruct (Client.Get c k s) as [[o|e] s3]
     end; reconciler_simpl; [| destruct (IsNotFound e)]; by eexists _, _).
Qed.

(** ** Claims about [ensureDeleted] *)

(** C4: in [ensureDeleted], once the delete request went through, the
    live object is fetched again exactly once: when that fetch reports
    not-found the answer is success with no error, and when the object
    is still there the answer is the "waiting to be deleted" error.  No
    run makes more than two fetches, so nothing loops or waits inside.
    This holds of all five reconcilers, over any client. *)
Theorem ensureDeleted_refetches_once `{C : Collaborators} St :
  RefetchesOnce (@ocsNFSService.newNFSService St)
                (@ocsNFSService.ensureDeleted St)
                (errWaiting "NFS Service") /\
  RefetchesOnce
    (@ocsCephNetworkFilesystem.newCephNetworkFilesystemInstance _ St)
    (@ocsCephNetworkFilesystem.ensureDeleted _ St)
    (errWaiting "cephNetworkFilesystem") /\
  RefetchesOnce (@ocsCephNFS.newCephNFSInstance _ St)
                (@ocsCephNFS.ensureDeleted _ St)
                (errWaiting "CephNFS") /\
  RefetchesOnce (@ocsCephNFSBlockPool.newCephNFSBlockPoolInstance _ St)
                (@ocsCephNFSBlockPool.ensureDeleted _ St)
                (errWaiting "CephBlockPool") /\
  RefetchesOnce (@ocsCephNFSService.newNFSService St)
                (@ocsCephNFSService.ensureDeleted St)
                (errWaiting "NFS Service").
Proof.
  repeat apply conj; unfold RefetchesOnce.
  all: try (intros; note_unmarked; run_eq).
  all: intros; reconciler_unfold; reconciler_simpl;
    repeat case_match; simplify_eq; simpl; lia.
Qed.

(** C6: when the first fetch of [ensureDeleted] reports not-found, the
    answer is success with no error and that fetch is the only call:
    no create, no update, no delete.  This holds of all five
    reconcilers, over any client. *)
Theorem ensureDeleted_of_absent_succeeds `{C : Collaborators} St :
  DeleteOfAbsentSucceeds (@ocsNFSService.newNFSService St)
                         (@ocsNFSService.ensureDeleted St) /\
  DeleteOfAbsentSucceeds
    (@ocsCephNetworkFilesystem.newCephNetworkFilesystemInstance _ St)
    (@ocsCephNetworkFilesystem.ensureDeleted _ St) /\
  DeleteOfAbsentSucceeds (@ocsCephNFS.newCephNFSInstance _ St)
                         (@ocsCephNFS.ensureDeleted _ St) /\
  DeleteOfAbsentSucceeds (@ocsCephNFSBlockPool.newCephNFSBlockPoolInstance _ St)
                         (@ocsCephNFSBlockPool.ensureDeleted _ St) /\
  DeleteOfAbsentSucceeds (@ocsCephNFSService.newNFSService St)
                         (@ocsCephNFSService.ensureDeleted St).
Proof. repeat split; unfold DeleteOfAbsentSucceeds; run_eq. Qed.

(** ** Claims about [ensureCreated] *)

(** C2: with the feature enabled, when the live object is found and
    carries a deletion timestamp, [ensureCreated] answers the
    pending-deletion error, and the fetch is its only call: no create
    and no update is issued, and the cluster is as the fetch left it.
    This holds of all five reconcilers, over any client. *)
Theorem ensureCreated_rejects_pending_deletion `{C : Collaborators} St :
  RejectsPendingDeletion (@ocsNFSService.newNFSService St)
                         (@ocsNFSService.ensureCreated St) /\
  RejectsPendingDeletion
    (@ocsCephNetworkFilesystem.newCephNetworkFilesystemInstance _ St)
    (@ocsCephNetworkFilesystem.ensureCreated _ St) /\
  RejectsPendingDeletion (@ocsCephNFS.newCephNFSInstance _ St)
                         (@ocsCephNFS.ensureCreated _ St) /\
  RejectsPendingDeletion (@ocsCephNFSBlockPool.newCephNFSBlockPoolInstance _ St)
                         (@ocsCephNFSBlockPool.ensureCreated _ St) /\
  RejectsPendingDeletion (@ocsCephNFSService.newNFSService St)
                         (@ocsCephNFSService.ensureCreated St).
Proof. repeat split; unfold RejectsPendingDeletion; run_eq. Qed.

(** C3: for a parent whose NFS flag is absent or false, [ensureCreated]
    returns exactly what [ensureDeleted] returns on the same parent and
    the same cluster: the same requeue hint, the same error, the same
    calls.  This holds of all five reconcilers, over any client. *)
Theorem ensureCreated_disabled_is_ensureDeleted `{C : Collaborators} St :
  DisableDrivesDelete (@ocsNFSService.ensureCreated St)
                      (@ocsNFSService.ensureDeleted St) /\
  DisableDrivesDelete (@ocsCephNetworkFilesystem.ensureCreated _ St)
                      (@ocsCephNetworkFilesystem.ensureDeleted _ St) /\
  DisableDrivesDelete (@ocsCephNFS.ensureCreated _ St)
                      (@ocsCephNFS.ensureDeleted _ St) /\
  DisableDrivesDelete (@ocsCephNFSBlockPool.ensureCreated _ St)
                      (@ocsCephNFSBlockPool.ensureDeleted _ St) /\
  DisableDrivesDelete (@ocsCephNFSService.ensureCreated St)
                      (@ocsCephNFSService.ensureDeleted St).
Proof.
  assert (Hoff : forall instance,
    instance.(StorageCluster.Spec).(StorageClusterSpec.NFS) = None \/
    (exists nfs,
       instance.(StorageCluster.Spec).(StorageClusterSpec.NFS) = Some nfs /\
       nfs.(NFSSpec.Enable) = false) ->
    nfsNotEnabled instance = true).
  { intros instance [Hnil | (nfs & Hnfs & Hen)]; unfold nfsNotEnabled.
    - by rewrite Hnil.
    - by rewrite Hnfs, Hen. }
  repeat split; intros r instance w Hflag; apply Hoff in Hflag.
  - unfold ocsNFSService.ensureCreated. by rewrite Hflag.
  - unfold ocsCephNetworkFilesystem.ensureCreated. by rewrite Hflag.
  - unfold ocsCephNFS.ensureCreated. by rewrite Hflag.
  - unfold ocsCephNFSBlockPool.ensureCreated. by rewrite Hflag.
  - unfold ocsCephNFSService.ensureCreated. by rewrite Hflag.
Qed.

(** ** Both entry points *)

(** C10: every return path of [ensureCreated] and of [ensureDeleted],
    for every managed kind, returns the zero requeue hint (no requeue
    flag, zero delay); a need to retry, the "still deleting" one
    included, can only show in the error. *)
Theorem ensure_never_requeues `{C : Collaborators} St :
  NeverRequeues (@ocsNFSService.ensureCreated St)
                (@ocsNFSService.ensureDeleted St) /\
  NeverRequeues (@ocsCephNetworkFilesystem.ensureCreated _ St)
                (@ocsCephNetworkFilesystem.ensureDeleted _ St) /\
  NeverRequeues (@ocsCephNFS.ensureCreated _ St)
                (@ocsCephNFS.ensureDeleted _ St) /\
  NeverRequeues (@ocsCephNFSBlockPool.ensureCreated _ St)
                (@ocsCephNFSBlockPool.ensureDeleted _ St) /\
  NeverRequeues (@ocsCephNFSService.ensureCreated St)
                (@ocsCephNFSService.ensureDeleted St).
Proof.
  repeat apply conj; intros r instance w; split;
    reconciler_unfold; reconciler_simpl;
    repeat case_match; simplify_eq; reflexivity.
Qed.

(** ** The update path of the NFS Service *)

(** C9: on the update path of the NFS Service reconciler of
    nfsservice.go (the live Service is found and is not marked for
    deletion), the Service submitted to [Update] takes its owner
    references, ports, selector and session affinity from the desired
    object and every other field, the cluster IP among them, from the
    live Service. *)
Theorem nfsService_update_frame St
  (r : StorageClusterReconciler.t Service.t St) instance st
  desired existing st1 :
  nfsNotEnabled instance = false ->
  ocsNFSService.newNFSService r instance = Ok desired ->
  Client.Get r.(StorageClusterReconciler.Client)
             (ObjectKeyFromObject desired) st = (Ok existing, st1) ->
  Service.DeletionTimestamp existing = None ->
  exists submitted err,
    calls (ocsNFSService.ensureCreated r instance (mkWorld st [])).2 =
      [CallGet (ObjectKeyFromObject desired) (Ok existing);
       CallUpdate submitted err] /\
    (* taken from the desired object *)
    submitted.(Service.ObjectMeta).(ObjectMeta.OwnerReferences) =
      desired.(Service.ObjectMeta).(ObjectMeta.OwnerReferences) /\
    submitted.(Service.Spec).(ServiceSpec.Ports) =
      desired.(Service.Spec).(ServiceSpec.Ports) /\
    submitted.(Service.Spec).(ServiceSpec.Selector) =
      desired.(Service.Spec).(ServiceSpec.Selector) /\
    submitted.(Service.Spec).(ServiceSpec.SessionAffinity) =
      desired.(Service.Spec).(ServiceSpec.SessionAffinity) /\
    (* left as the live Service has them: the rest of the spec *)
    submitted.(Service.Spec).(ServiceSpec.ClusterIP) =
      existing.(Service.Spec).(ServiceSpec.ClusterIP) /\
    submitted.(Service.Spec).(ServiceSpec.ClusterIPs) =
      existing.(Service.Spec).(ServiceSpec.ClusterIPs) /\
    submitted.(Service.Spec).(ServiceSpec.Type_) =
      existing.(Service.Spec).(ServiceSpec.Type_) /\
    submitted.(Service.Spec).(ServiceSpec.ExternalIPs) =
      existing.(Service.Spec).(ServiceSpec.ExternalIPs) /\
    (* the status *)
    submitted.(Service.Status) = existing.(Service.Status) /\
    (* and the rest of the metadata *)
    submitted.(Service.ObjectMeta).(ObjectMeta.Name) =
      existing.(Service.ObjectMeta).(ObjectMeta.Name) /\
    submitted.(Service.ObjectMeta).(ObjectMeta.Namespace) =
      existing.(Service.ObjectMeta).(ObjectMeta.Namespace) /\
    submitted.(Service.ObjectMeta).(ObjectMeta.UID) =
      existing.(Service.ObjectMeta).(ObjectMeta.UID) /\
    submitted.(Service.ObjectMeta).(ObjectMeta.ResourceVersion) =
      existing.(Service.ObjectMeta).(ObjectMeta.ResourceVersion) /\
    submitted.(Service.ObjectMeta).(ObjectMeta.Generation) =
      existing.(Service.ObjectMeta).(ObjectMeta.Generation) /\
    submitted.(Service.ObjectMeta).(ObjectMeta.CreationTimestamp) =
      existing.(Service.ObjectMeta).(ObjectMeta.CreationTimestamp) /\
    submitted.(Service.ObjectMeta).(ObjectMeta.DeletionTimestamp) =
      existing.(Service.ObjectMeta).(ObjectMeta.DeletionTimestamp) /\
    submitted.(Service.ObjectMeta).(ObjectMeta.Labels) =
      existing.(Service.ObjectMeta).(ObjectMeta.Labels) /\
    submitted.(Service.ObjectMeta).(ObjectMeta.Annotations) =
      existing.(Service.ObjectMeta).(ObjectMeta.Annotations) /\
    submitted.(Service.ObjectMeta).(ObjectMeta.Finalizers) =
      existing.(Service.ObjectMeta).(ObjectMeta.Finalizers).
Proof.
  intros Hon Hbuild Hget Hlive.
  destruct (Client.Update r.(StorageClusterReconciler.Client)
              (restoreNFSService desired existing) st1) as [err st2] eqn:Hupd.
  exists (restoreNFSService desired existing), err.
  split; [| by repeat split].
  assert (Hrun : UpdatesFound (@ocsNFSService.newNFSService St)
                   (@ocsNFSService.ensureCreated St) restoreNFSService)
    by (unfold UpdatesFound; run_eq).
  by rewrite (Hrun r instance st desired existing st1 err st2).
Qed.

(** ** The builders are functions of the parent alone *)

(** C8: the builders [newNFSService], [newCephNFSInstance] and
    [newCephNetworkFilesystemInstance] are deterministic.  Two
    invocations, whatever reconciler, client and cluster state they run
    with, on parents that agree on the identity (name, namespace, UID)
    and on the part of the spec the kind reads, give the same answer,
    desired object and derived name included; and the derived name is
    the parent's name followed by a suffix fixed by the kind.  The
    placement helper is a collaborator, so agreement of its answers is
    assumed where a builder asks it. *)
Theorem builders_deterministic `{C : Collaborators} :
  (forall St St' (r : StorageClusterReconciler.t Service.t St)
          (r' : StorageClusterReconciler.t Service.t St') p p',
     r.(StorageClusterReconciler.Scheme) = r'.(StorageClusterReconciler.Scheme) ->
     StorageCluster.Name p = StorageCluster.Name p' ->
     StorageCluster.Namespace p = StorageCluster.Namespace p' ->
     p.(StorageCluster.ObjectMeta).(ObjectMeta.UID) =
       p'.(StorageCluster.ObjectMeta).(ObjectMeta.UID) ->
     p.(StorageCluster.Spec).(StorageClusterSpec.Network) =
       p'.(StorageCluster.Spec).(StorageClusterSpec.Network) ->
     ocsNFSService.newNFSService r p = ocsNFSService.newNFSService r' p' /\
     ocsCephNFSService.newNFSService r p =
       ocsCephNFSService.newNFSService r' p') /\
  (forall St St' (r : StorageClusterReconciler.t CephNFS.t St)
          (r' : StorageClusterReconciler.t CephNFS.t St') p p',
     r.(StorageClusterReconciler.Scheme) = r'.(StorageClusterReconciler.Scheme) ->
     StorageCluster.Name p = StorageCluster.Name p' ->
     StorageCluster.Namespace p = StorageCluster.Namespace p' ->
     p.(StorageCluster.ObjectMeta).(ObjectMeta.UID) =
       p'.(StorageCluster.ObjectMeta).(ObjectMeta.UID) ->
     p.(StorageCluster.Spec).(StorageClusterSpec.Resources) =
       p'.(StorageCluster.Spec).(StorageClusterSpec.Resources) ->
     getPlacement p "nfs" = getPlacement p' "nfs" ->
     ocsCephNFS.newCephNFSInstance r p = ocsCephNFS.newCephNFSInstance r' p' /\
     ocsCephNetworkFilesystem.newCephNetworkFilesystemInstance r p =
       ocsCephNetworkFilesystem.newCephNetworkFilesystemInstance r' p') /\
  (forall St (r : StorageClusterReconciler.t Service.t St) p desired,
     ocsNFSService.newNFSService r p = Ok desired \/
     ocsCephNFSService.newNFSService r p = Ok desired ->
     Service.Name desired = StorageCluster.Name p +:+ "-cephnfs-service") /\
  (forall St (r : StorageClusterReconciler.t CephNFS.t St) p desired,
     (ocsCephNFS.newCephNFSInstance r p = Ok desired ->
      CephNFS.Name desired = StorageCluster.Name p +:+ "-cephnfs") /\
     (ocsCephNetworkFilesystem.newCephNetworkFilesystemInstance r p
        = Ok desired ->
      CephNFS.Name desired =
        StorageCluster.Name p +:+ "-cephnetworkfilesystem")).
Proof.
  split; [| split; [| split]].
  - intros St St' r r' p p' Hscheme Hname Hns Huid Hnet.
    unfold ocsNFSService.newNFSService, ocsCephNFSService.newNFSService,
      SetControllerReference, validateOwner, generateNameForNFSService,
      generateNameForCephNetworkFilesystem, generateNameForCephNFS.
    by rewrite Hscheme, Hname, Hns, Huid, Hnet.
  - intros St St' r r' p p' Hscheme Hname Hns Huid Hres Hplace.
    unfold ocsCephNFS.newCephNFSInstance,
      ocsCephNetworkFilesystem.newCephNetworkFilesystemInstance,
      SetControllerReference, validateOwner,
      generateNameForCephNetworkFilesystem, generateNameForCephNFS.
    by rewrite Hscheme, Hname, Hns, Huid, Hres, Hplace.
  - intros St r p desired [Hb | Hb]; invert_builder Hb; reflexivity.
  - intros St r p desired; split; intros Hb; invert_builder Hb; reflexivity.
Qed.

(** ** Idempotence on the object store *)

Section Idempotence.
Context {Obj : Type} `{Object Obj}.
Variable build :
  StorageClusterReconciler.t Obj (gmap NamespacedName.t Obj) ->
  StorageCluster.t -> result Obj.
Variable ensureCreated :
  StorageClusterReconciler.t Obj (gmap NamespacedName.t Obj) ->
  StorageCluster.t -> M Obj (gmap NamespacedName.t Obj) Outcome.
Variable restore : Obj -> Obj -> Obj.

Hypothesis pending : RejectsPendingDeletion build ensureCreated.
Hypothesis updates : UpdatesFound build ensureCreated restore.
Hypothesis creates : CreatesAbsent build ensureCreated.
Hypothesis surfaces : SurfacesBuilderError build ensureCreated.
Hypothesis unmarked : BuildsUnmarked build.

(** Restoring keeps the name, the namespace and the deletion timestamp
    of the live object; restoring twice is restoring once; and a
    desired object restored from itself is itself. *)
Hypothesis restore_key : forall desired existing,
  ObjectKeyFromObject (restore desired existing) = ObjectKeyFromObject existing.
Hypothesis restore_timestamp : forall desired existing,
  (GetObjectMeta (restore desired existing)).(ObjectMeta.DeletionTimestamp) =
  (GetObjectMeta existing).(ObjectMeta.DeletionTimestamp).
Hypothesis restore_twice : forall desired existing,
  restore desired (restore desired existing) = restore desired existing.
Hypothesis restore_self : forall desired, restore desired desired = desired.

(** An update of the store with the object it already holds. *)
Lemma Store_update_held (obj : Obj) (st : gmap NamespacedName.t Obj) :
  st !! ObjectKeyFromObject obj = Some obj ->
  Store.Update obj st = (None, st).
Proof.
  intros Hheld. unfold Store.Update. rewrite Hheld.
  by rewrite insert_id.
Qed.

Lemma converges_from_paths : ConvergesIdempotently build ensureCreated.
Proof.
  intros now scheme instance st Hon Hkeyed r first second.
  subst first second.
  destruct (build r instance) as [desired | err] eqn:Hbuild.
  2: { rewrite (surfaces r instance st err Hon Hbuild). cbn [snd cluster].
       rewrite (surfaces r instance st err Hon Hbuild).
       repeat split. intros c []. }
  set (key := ObjectKeyFromObject desired).
  destruct (st !! key) as [existing |] eqn:Hlive.
  - assert (Hget : Client.Get r.(StorageClusterReconciler.Client) key st
                   = (Ok existing, st)).
    { cbn. unfold Store.Get. by rewrite Hlive. }
    destruct ((GetObjectMeta existing).(ObjectMeta.DeletionTimestamp))
      as [ts |] eqn:Hts.
    + (* marked for deletion: both runs stop after the fetch *)
      rewrite (pending r instance st desired existing ts st Hon Hbuild Hget Hts).
      cbn [snd cluster].
      rewrite (pending r instance st desired existing ts st Hon Hbuild Hget Hts).
      repeat split. intros c [<- | []]. discriminate.
    + (* live: the first run updates, the second submits what is held *)
      pose proof (Hkeyed _ _ Hlive) as Hkey.
      set (restored := restore desired existing).
      assert (Hrkey : ObjectKeyFromObject restored = key).
      { subst restored. by rewrite restore_key. }
      assert (Hupd : Client.Update r.(StorageClusterReconciler.Client)
                       restored st = (None, <[key := restored]> st)).
      { cbn. unfold Store.Update. by rewrite Hrkey, Hlive. }
      rewrite (updates r instance st desired existing st None _
                 Hon Hbuild Hget Hts Hupd).
      cbn [snd cluster].
      assert (Hheld : <[key := restored]> st !! key = Some restored)
        by apply lookup_insert_eq.
      assert (Hget2 : Client.Get r.(StorageClusterReconciler.Client) key
                        (<[key := restored]> st)
                      = (Ok restored, <[key := restored]> st)).
      { cbn. unfold Store.Get. by rewrite Hheld. }
      assert (Hts2 : (GetObjectMeta restored).(ObjectMeta.DeletionTimestamp)
                     = None).
      { subst restored. by rewrite restore_timestamp. }
      assert (Hupd2 : Client.Update r.(StorageClusterReconciler.Client)
                        (restore desired restored) (<[key := restored]> st)
                      = (None, <[key := restored]> st)).
      { subst restored. rewrite restore_twice. cbn.
        apply Store_update_held. by rewrite Hrkey. }
      rewrite (updates r instance _ desired restored _ None _
                 Hon Hbuild Hget2 Hts2 Hupd2).
      repeat split.
      intros c [<- | [<- | []]] Hmut; [discriminate |].
      exists restored. subst restored. rewrite restore_twice.
      split; [| done]. by rewrite Hrkey.
  - (* absent: the first run creates, the second submits what is held *)
    assert (Hget : Client.Get r.(StorageClusterReconciler.Client) key st
                   = (Err (Store.errNotFound key), st)).
    { cbn. unfold Store.Get. by rewrite Hlive. }
    assert (Hcre : Client.Create r.(StorageClusterReconciler.Client)
                     desired st = (None, <[key := desired]> st)).
    { cbn. unfold Store.Create. fold key. by rewrite Hlive. }
    rewrite (creates r instance st desired _ st None _
               Hon Hbuild Hget eq_refl Hcre).
    cbn [snd cluster].
    assert (Hheld : <[key := desired]> st !! key = Some desired)
      by apply lookup_insert_eq.
    assert (Hget2 : Client.Get r.(StorageClusterReconciler.Client) key
                      (<[key := desired]> st)
                    = (Ok desired, <[key := desired]> st)).
    { cbn. unfold Store.Get. by rewrite Hheld. }
    assert (Hupd2 : Client.Update r.(StorageClusterReconciler.Client)
                      (restore desired desired) (<[key := desired]> st)
                    = (None, <[key := desired]> st)).
    { rewrite restore_self. cbn. by apply Store_update_held. }
    rewrite (updates r instance _ desired desired _ None _
               Hon Hbuild Hget2 (unmarked r instance desired Hbuild) Hupd2).
    repeat split.
    intros c [<- | [<- | []]] Hmut; [discriminate |].
    exists desired. rewrite restore_self. by split.
Qed.

End Idempotence.

(** What the five ways of restoring have in common. *)
Ltac restore_facts :=
  intros;
  repeat match goal with
         | x : Service.t |- _ => destruct x as [[] [] ?]
         | x : CephNFS.t |- _ => destruct x as [[] ? ?]
         | x : CephBlockPool.t |- _ => destruct x as [[] ? ?]
         end;
  reflexivity.

(** C7: with the feature enabled and a cluster in which nothing fails
    (the object store), running [ensureCreated] a second time with the
    same parent leaves the live objects exactly as the first run left
    them and returns what the first run returned; the second run
    creates and deletes nothing, and if it updates, it submits the very
    object the store already holds.  This holds of all five
    reconcilers. *)
Theorem ensureCreated_idempotent_on_store `{C : Collaborators} :
  ConvergesIdempotently (@ocsNFSService.newNFSService _)
                        (@ocsNFSService.ensureCreated _) /\
  ConvergesIdempotently
    (@ocsCephNetworkFilesystem.newCephNetworkFilesystemInstance _ _)
    (@ocsCephNetworkFilesystem.ensureCreated _ _) /\
  ConvergesIdempotently (@ocsCephNFS.newCephNFSInstance _ _)
                        (@ocsCephNFS.ensureCreated _ _) /\
  ConvergesIdempotently (@ocsCephNFSBlockPool.newCephNFSBlockPoolInstance _ _)
                        (@ocsCephNFSBlockPool.ensureCreated _ _) /\
  ConvergesIdempotently (@ocsCephNFSService.newNFSService _)
                        (@ocsCephNFSService.ensureCreated _).
Proof.
  repeat apply conj.
  - apply (converges_from_paths _ _ restoreNFSService);
      try (by restore_facts);
      first [ apply newNFSService_unmarked
            | unfold RejectsPendingDeletion, UpdatesFound, CreatesAbsent,
                SurfacesBuilderError; run_eq ].
  - apply (converges_from_paths _ _ restoreCephNFS);
      try (by restore_facts);
      first [ apply newCephNetworkFilesystemInstance_unmarked
            | unfold RejectsPendingDeletion, UpdatesFound, CreatesAbsent,
                SurfacesBuilderError; run_eq ].
  - apply (converges_from_paths _ _ restoreCephNFS);
      try (by restore_facts);
      first [ apply newCephNFSInstance_unmarked
            | unfold RejectsPendingDeletion, UpdatesFound, CreatesAbsent,
                SurfacesBuilderError; run_eq ].
  - apply (converges_from_paths _ _ restoreCephBlockPool);
      try (by restore_facts);
      first [ apply newCephNFSBlockPoolInstance_unmarked
            | unfold RejectsPendingDeletion, UpdatesFound, CreatesAbsent,
                SurfacesBuilderError; run_eq ].
  - apply (converges_from_paths _ _ restoreCephNFSService);
      try (by restore_facts);
      first [ apply newNFSService_of_cephnfs_unmarked
            | unfold RejectsPendingDeletion, UpdatesFound, CreatesAbsent,
                SurfacesBuilderError; run_eq ].
Qed.

(** ** The reconcilers at concrete parents and clusters *)

(** Settle a closed equation by evaluating both sides. *)
Ltac by_evaluation :=
  match goal with
  | |- ?l = ?r => vm_cast_no_check (@eq_refl _ r)
  end.

Example builds_desiredService :
  ocsNFSService.newNFSService Fixture.serviceReconciler Fixture.ocsinit
  = Ok Fixture.desiredService.
Proof. by_evaluation. Qed.

(** When the parent's type was never registered in the scheme the
    builder fails, and [ensureCreated] hands that error back without
    calling the client. *)
Example unregistered_parent_surfaces :
  ocsNFSService.ensureCreated
    (StorageClusterReconciler.mk (Store.client 500) Fixture.emptyScheme)
    Fixture.ocsinit (mkWorld ∅ []) =
  ((Result.zero,
    Some (errorString
      "no kind is registered for the type v1.StorageCluster in scheme")),
   mkWorld ∅ []).
Proof. by_evaluation. Qed.

(** On an empty cluster the CephNFS is created as built; a CephNFS that
    is being deleted is left alone. *)
Example creates_cephNFS desired :
  @ocsCephNFS.newCephNFSInstance Fixture.collaborators _
    Fixture.cephNFSReconciler Fixture.ocsinit = Ok desired ->
  @ocsCephNFS.ensureCreated Fixture.collaborators _
    Fixture.cephNFSReconciler Fixture.ocsinit (mkWorld ∅ []) =
  ((Result.zero, None),
   mkWorld {[Fixture.cephNFSKey := desired]}
     [CallGet Fixture.cephNFSKey
        (Err (StatusError StatusReasonNotFound "ocsinit-cephnfs not found"));
      CallCreate desired None]).
Proof. intros Hbuilt. vm_compute in Hbuilt. injection Hbuilt as <-. by_evaluation. Qed.

Example leaves_terminating_cephNFS :
  @ocsCephNFS.ensureCreated Fixture.collaborators _
    Fixture.cephNFSReconciler Fixture.ocsinit
    (mkWorld {[Fixture.cephNFSKey := Fixture.terminatingCephNFS]} []) =
  ((Result.zero, Some (errMarkedForDeletion "ocsinit-cephnfs")),
   mkWorld {[Fixture.cephNFSKey := Fixture.terminatingCephNFS]}
     [CallGet Fixture.cephNFSKey (Ok Fixture.terminatingCephNFS)]).
Proof. by_evaluation. Qed.

Example restores_liveService :
  restoreNFSService Fixture.desiredService Fixture.liveService
  = Fixture.restoredService.
Proof. by_evaluation. Qed.

(** C1: every error of the cluster met during [ensureCreated] is
    returned to the caller.  The code does not do this for the fetch:
    with the API server out of reach the fetch of the live object fails
    with an internal error, which is not not-found, and [ensureCreated]
    of the NFS Service and of the CephNFS network filesystem answers
    success after that single call. *)
Theorem ensureCreated_answers_success_when_fetch_fails :
  IsNotFound Fixture.internalError = false /\
  ocsNFSService.ensureCreated Fixture.cutOffServiceReconciler
      Fixture.ocsinit (mkWorld tt []) =
    ((Result.zero, None),
     mkWorld tt [CallGet Fixture.serviceKey (Err Fixture.internalError)]) /\
  @ocsCephNetworkFilesystem.ensureCreated Fixture.collaborators unit
      Fixture.cutOffCephNFSReconciler Fixture.ocsinit (mkWorld tt []) =
    ((Result.zero, None),
     mkWorld tt [CallGet Fixture.networkFilesystemKey
                         (Err Fixture.internalError)]).
Proof. repeat split; by_evaluation. Qed.

(** C5: [ensureDeleted] asks for the delete only when the fetched live
    object is not yet marked for deletion.  The code does not do this:
    the timestamp it tests is that of the object it has just built,
    which is never set, so for a live object that already carries a
    deletion timestamp the delete is requested all the same, between
    the fetch and the re-fetch. *)
Theorem ensureDeleted_deletes_object_marked_for_deletion :
  Service.DeletionTimestamp Fixture.terminatingService = Some 500 /\
  calls (ocsNFSService.ensureDeleted Fixture.serviceReconciler
           Fixture.ocsinitDisabled
           (mkWorld {[Fixture.serviceKey := Fixture.terminatingService]} [])).2
    = [CallGet Fixture.serviceKey (Ok Fixture.terminatingService);
       CallDelete Fixture.terminatingService None;
       CallGet Fixture.serviceKey (Ok Fixture.terminatingService)] /\
  CephNFS.DeletionTimestamp Fixture.terminatingNetworkFilesystem = Some 500 /\
  calls (@ocsCephNetworkFilesystem.ensureDeleted Fixture.collaborators _
           Fixture.cephNFSReconciler Fixture.ocsinitDisabled
           (mkWorld {[Fixture.networkFilesystemKey :=
                        Fixture.terminatingNetworkFilesystem]} [])).2
    = [CallGet Fixture.networkFilesystemKey
               (Ok Fixture.terminatingNetworkFilesystem);
       CallDelete Fixture.terminatingNetworkFilesystem None;
       CallGet Fixture.networkFilesystemKey
               (Ok Fixture.terminatingNetworkFilesystem)].
Proof. repeat split; by_evaluation. Qed.

(** A Service being deleted is not restored. *)
Lemma ensureCreated_rejects_pending_deletion_witness :
  ocsNFSService.ensureCreated Fixture.serviceReconciler Fixture.ocsinit
    (mkWorld {[Fixture.serviceKey := Fixture.terminatingService]} []) =
  ((Result.zero,
    Some (errorString
      "failed to restore initialization object ocsinit-cephnfs-service because it is marked for deletion")),
   mkWorld {[Fixture.serviceKey := Fixture.terminatingService]}
           [CallGet Fixture.serviceKey (Ok Fixture.terminatingService)]).
Proof.
  apply (proj1 (ensureCreated_rejects_pending_deletion
                  (C:=Fixture.collaborators) _)
           Fixture.serviceReconciler Fixture.ocsinit
           {[Fixture.serviceKey := Fixture.terminatingService]}
           Fixture.desiredService Fixture.terminatingService 500
           {[Fixture.serviceKey := Fixture.terminatingService]});
    by_evaluation.
Defined.

(** With [enable: false] the Service is deleted through
    [ensureCreated]. *)
Lemma ensureCreated_disabled_is_ensureDeleted_witness :
  ocsNFSService.ensureCreated Fixture.serviceReconciler
    Fixture.ocsinitDisabled
    (mkWorld {[Fixture.serviceKey := Fixture.liveService]} []) =
  ocsNFSService.ensureDeleted Fixture.serviceReconciler
    Fixture.ocsinitDisabled
    (mkWorld {[Fixture.serviceKey := Fixture.liveService]} []).
Proof.
  apply (proj1 (ensureCreated_disabled_is_ensureDeleted
                  (C:=Fixture.collaborators) _)).
  right. exists (NFSSpec.mk false). split; reflexivity.
Defined.

(** The live Service has a finalizer: the delete is accepted, the
    re-fetch still finds the Service, now marked, and the answer is the
    waiting error. *)
Lemma ensureDeleted_refetches_once_witness :
  ocsNFSService.ensureDeleted Fixture.serviceReconciler
    Fixture.ocsinitDisabled
    (mkWorld {[Fixture.serviceKey := Fixture.liveService]} []) =
  ((Result.zero,
    Some (errorString
      "uninstall: Waiting for NFS Service ocsinit-cephnfs-service to be deleted")),
   mkWorld {[Fixture.serviceKey := Fixture.terminatingService]}
           [CallGet Fixture.serviceKey (Ok Fixture.liveService);
            CallDelete Fixture.liveService None;
            CallGet Fixture.serviceKey (Ok Fixture.terminatingService)]).
Proof.
  apply (proj1 (proj1 (ensureDeleted_refetches_once
                         (C:=Fixture.collaborators) _))
           Fixture.serviceReconciler Fixture.ocsinitDisabled
           {[Fixture.serviceKey := Fixture.liveService]}
           Fixture.desiredService Fixture.liveService
           {[Fixture.serviceKey := Fixture.liveService]}
           {[Fixture.serviceKey := Fixture.terminatingService]}
           (Ok Fixture.terminatingService)
           {[Fixture.serviceKey := Fixture.terminatingService]});
    by_evaluation.
Defined.

(** On an empty cluster there is nothing to delete. *)
Lemma ensureDeleted_of_absent_succeeds_witness :
  ocsNFSService.ensureDeleted Fixture.serviceReconciler
    Fixture.ocsinitDisabled (mkWorld ∅ []) =
  ((Result.zero, None),
   mkWorld ∅ [CallGet Fixture.serviceKey
                (Err (StatusError StatusReasonNotFound
                        "ocsinit-cephnfs-service not found"))]).
Proof.
  apply (proj1 (ensureDeleted_of_absent_succeeds
                  (C:=Fixture.collaborators) _)
           Fixture.serviceReconciler Fixture.ocsinitDisabled ∅
           Fixture.desiredService
           (StatusError StatusReasonNotFound
              "ocsinit-cephnfs-service not found") ∅);
    by_evaluation.
Defined.

(** A second [ensureCreated] on a cluster with a drifted Service. *)
Lemma ensureCreated_idempotent_on_store_witness :
  let st : gmap NamespacedName.t Service.t :=
    {[Fixture.serviceKey := Fixture.liveService]} in
  let r := StorageClusterReconciler.mk (Store.client 500) Fixture.scheme in
  let first := ocsNFSService.ensureCreated r Fixture.ocsinit (mkWorld st []) in
  let second :=
    ocsNFSService.ensureCreated r Fixture.ocsinit
      (mkWorld (cluster first.2) []) in
  cluster second.2 = cluster first.2 /\
  second.1 = first.1 /\
  forall c, In c (calls second.2) -> isMutating c = true ->
    exists live,
      cluster first.2 !! ObjectKeyFromObject live = Some live /\
      c = CallUpdate live None.
Proof.
  apply (proj1 (ensureCreated_idempotent_on_store
                  (C:=Fixture.collaborators))
           500 Fixture.scheme Fixture.ocsinit
           {[Fixture.serviceKey := Fixture.liveService]}).
  - reflexivity.
  - intros key obj Hheld.
    apply lookup_singleton_Some in Hheld as [<- <-]. reflexivity.
Defined.

(** The parent later in its life, asked through a client that cannot
    reach the API server, gets the same Service built. *)
Lemma builders_deterministic_witness :
  ocsNFSService.newNFSService Fixture.serviceReconciler Fixture.ocsinit =
  ocsNFSService.newNFSService Fixture.cutOffServiceReconciler
    Fixture.ocsinitNoNFS.
Proof.
  apply (proj1 (builders_deterministic (C:=Fixture.collaborators))
           _ _ Fixture.serviceReconciler Fixture.cutOffServiceReconciler
           Fixture.ocsinit Fixture.ocsinitNoNFS);
    reflexivity.
Defined.

(** Restoring the drifted Service keeps its cluster IP. *)
Lemma nfsService_update_frame_witness :
  exists submitted err,
    calls (ocsNFSService.ensureCreated Fixture.serviceReconciler
             Fixture.ocsinit
             (mkWorld {[Fixture.serviceKey := Fixture.liveService]} [])).2 =
      [CallGet Fixture.serviceKey (Ok Fixture.liveService);
       CallUpdate submitted err] /\
    submitted.(Service.Spec).(ServiceSpec.ClusterIP) = "172.30.7.9".
Proof.
  destruct (nfsService_update_frame _ Fixture.serviceReconciler
              Fixture.ocsinit
              {[Fixture.serviceKey := Fixture.liveService]}
              Fixture.desiredService Fixture.liveService
              {[Fixture.serviceKey := Fixture.liveService]})
    as (submitted & err & Hcalls & _ & _ & _ & _ & Hip & _);
    [reflexivity | by_evaluation | by_evaluation | reflexivity |].
  exists submitted, err. split; [exact Hcalls | exact Hip].
Defined.

(** * Beyond the claims: builders, remaining paths, and the store *)

(** An object made in the namespace of its owner always passes the
    validation of the owner; what is left is the lookup of the kind. *)
Lemma SetControllerReference_in_owner_namespace owner name scheme :
  SetControllerReference owner
    (ObjectMeta.named name (StorageCluster.Namespace owner)) scheme =
  match GVKForObject scheme with
  | Err err => Err err
  | Ok gvk =>
      Ok (ObjectMeta.setOwnerReferences [controllerRef gvk owner]
            (ObjectMeta.named name (StorageCluster.Namespace owner)))
  end.
Proof.
  unfold SetControllerReference, validateOwner. cbn.
  rewrite String.eqb_refl.
  destruct (String.eqb (StorageCluster.Namespace owner) ""); cbn;
    by destruct (GVKForObject scheme).
Qed.

Ltac open_builder :=
  unfold ocsNFSService.newNFSService,
    ocsCephNetworkFilesystem.newCephNetworkFilesystemInstance,
    ocsCephNFS.newCephNFSInstance,
    ocsCephNFSBlockPool.newCephNFSBlockPoolInstance,
    ocsCephNFSService.newNFSService in *;
  repeat match goal with
         | |- context [StorageClusterSpec.Network ?s] =>
             destruct (StorageClusterSpec.Network s) as [[[]] |]
         | H : context [StorageClusterSpec.Network ?s] |- _ =>
             destruct (StorageClusterSpec.Network s) as [[[]] |]
         end;
  cbn [NetworkSpec.HostNetwork Service.ObjectMeta Service.setSpec
       CephNFS.ObjectMeta
       CephBlockPool.ObjectMeta] in *;
  rewrite ?SetControllerReference_in_owner_namespace in *.

(** X1: whatever a builder answers with [Ok] lives in the namespace of
    the parent and has, besides its name, exactly one owner reference:
    the controller reference to the parent (its name and UID, with
    [Controller] and [BlockOwnerDeletion] set), of the kind the scheme
    gives.  No labels, no finalizers, no deletion timestamp.  All five
    builders. *)
Theorem builders_set_one_owner `{C : Collaborators} St :
  BuildsOwnedByParent (@ocsNFSService.newNFSService St) /\
  BuildsOwnedByParent
    (@ocsCephNetworkFilesystem.newCephNetworkFilesystemInstance _ St) /\
  BuildsOwnedByParent (@ocsCephNFS.newCephNFSInstance _ St) /\
  BuildsOwnedByParent (@ocsCephNFSBlockPool.newCephNFSBlockPoolInstance _ St) /\
  BuildsOwnedByParent (@ocsCephNFSService.newNFSService St).
Proof.
  repeat apply conj; intros r sc desired Hbuilt; open_builder;
    unfold GVKForObject in Hbuilt;
    destruct (Scheme.StorageClusterKinds (StorageClusterReconciler.Scheme r))
      as [| ? [|]]; simplify_eq; by eexists.
Qed.

(** X2: a builder fails exactly when the kind of the parent cannot be
    read off the scheme, and then with the error of that lookup: since
    the object is made in the namespace of the parent, the validation
    of the owner can never reject it.  All five builders. *)
Theorem builders_fail_only_on_scheme `{C : Collaborators} St :
  FailsOnlyOnScheme (@ocsNFSService.newNFSService St) /\
  FailsOnlyOnScheme
    (@ocsCephNetworkFilesystem.newCephNetworkFilesystemInstance _ St) /\
  FailsOnlyOnScheme (@ocsCephNFS.newCephNFSInstance _ St) /\
  FailsOnlyOnScheme (@ocsCephNFSBlockPool.newCephNFSBlockPoolInstance _ St) /\
  FailsOnlyOnScheme (@ocsCephNFSService.newNFSService St).
Proof.
  repeat apply conj; intros r sc err; open_builder;
    destruct (GVKForObject (StorageClusterReconciler.Scheme r));
    split; intros; simplify_eq; done.
Qed.

(** X3: when the builder fails, [ensureCreated] (whatever the feature
    flag) and [ensureDeleted] answer that very error with the zero
    result and call nothing: the world is returned as it was given.
    All five reconcilers. *)
Theorem ensure_surfaces_builder_error `{C : Collaborators} St :
  SurfacesBuilderErrorEverywhere (@ocsNFSService.newNFSService St)
    (@ocsNFSService.ensureCreated St) (@ocsNFSService.ensureDeleted St) /\
  SurfacesBuilderErrorEverywhere
    (@ocsCephNetworkFilesystem.newCephNetworkFilesystemInstance _ St)
    (@ocsCephNetworkFilesystem.ensureCreated _ St)
    (@ocsCephNetworkFilesystem.ensureDeleted _ St) /\
  SurfacesBuilderErrorEverywhere (@ocsCephNFS.newCephNFSInstance _ St)
    (@ocsCephNFS.ensureCreated _ St) (@ocsCephNFS.ensureDeleted _ St) /\
  SurfacesBuilderErrorEverywhere
    (@ocsCephNFSBlockPool.newCephNFSBlockPoolInstance _ St)
    (@ocsCephNFSBlockPool.ensureCreated _ St)
    (@ocsCephNFSBlockPool.ensureDeleted _ St) /\
  SurfacesBuilderErrorEverywhere (@ocsCephNFSService.newNFSService St)
    (@ocsCephNFSService.ensureCreated St) (@ocsCephNFSService.ensureDeleted St).
Proof.
  repeat apply conj; intros r instance w err Hbuilt; split;
    reconciler_unfold; rewrite Hbuilt;
    by destruct (nfsNotEnabled instance).
Qed.

(** X7: when the first fetch of [ensureDeleted] fails with anything but
    not-found, the answer is a new error whose text is the "unable to
    retrieve" prefix of the kind, the name of the desired object and
    the text of the fetch error, and the fetch is the only call: no
    delete is attempted.  All five reconcilers, over any client. *)
Theorem ensureDeleted_reports_fetch_failure `{C : Collaborators} St :
  ReportsFetchFailure (@ocsNFSService.newNFSService St)
    (@ocsNFSService.ensureDeleted St)
    "uninstall: Unable to retrieve NFS Service " /\
  ReportsFetchFailure
    (@ocsCephNetworkFilesystem.newCephNetworkFilesystemInstance _ St)
    (@ocsCephNetworkFilesystem.ensureDeleted _ St)
    "uninstall: Unable to retrieve cephNetworkFilesystem " /\
  ReportsFetchFailure (@ocsCephNFS.newCephNFSInstance _ St)
    (@ocsCephNFS.ensureDeleted _ St)
    "uninstall: Unable to retrieve CephNFS " /\
  ReportsFetchFailure (@ocsCephNFSBlockPool.newCephNFSBlockPoolInstance _ St)
    (@ocsCephNFSBlockPool.ensureDeleted _ St)
    "uninstall: unable to retrieve CephBlockPool " /\
  ReportsFetchFailure (@ocsCephNFSService.newNFSService St)
    (@ocsCephNFSService.ensureDeleted St)
    "uninstall: Unable to retrieve NFS Service ".
Proof. repeat apply conj; unfold ReportsFetchFailure; run_eq. Qed.

(** X8: when the delete fails, [ensureDeleted] answers a new error whose
    text is the "Failed to delete" prefix of the kind, the name of the
    fetched object and the text of the delete error, and stops there:
    the calls are the fetch and the delete, with no re-fetch.  All five
    reconcilers, over any client. *)
Theorem ensureDeleted_reports_delete_failure `{C : Collaborators} St :
  ReportsDeleteFailure (@ocsNFSService.newNFSService St)
    (@ocsNFSService.ensureDeleted St)
    "uninstall: Failed to delete NFS Service " /\
  ReportsDeleteFailure
    (@ocsCephNetworkFilesystem.newCephNetworkFilesystemInstance _ St)
    (@ocsCephNetworkFilesystem.ensureDeleted _ St)
    "uninstall: Failed to delete cephNetworkFilesystem " /\
  ReportsDeleteFailure (@ocsCephNFS.newCephNFSInstance _ St)
    (@ocsCephNFS.ensureDeleted _ St)
    "uninstall: Failed to delete CephNFS " /\
  ReportsDeleteFailure (@ocsCephNFSBlockPool.newCephNFSBlockPoolInstance _ St)
    (@ocsCephNFSBlockPool.ensureDeleted _ St)
    "uninstall: Failed to delete CephBlockPool " /\
  ReportsDeleteFailure (@ocsCephNFSService.newNFSService St)
    (@ocsCephNFSService.ensureDeleted St)
    "uninstall: Failed to delete NFS Service ".
Proof.
  repeat apply conj; unfold ReportsDeleteFailure; intros; note_unmarked;
    run_eq.
Qed.

(** Every leaf of a run is a short explicit list of calls. *)
Ltac about_calls :=
  repeat apply conj; try (cbn; lia); intros;
  repeat match goal with
         | |- ~ _ => intros ?
         | |- _ /\ _ => split
         | H : In _ [] |- _ => destruct H
         | H : In _ (_ :: _) |- _ => destruct H as [? | ?]
         end;
  simplify_eq; cbn; eauto.

(** X9: whatever the client answers, [ensureDeleted] makes at most three
    calls, none of them a create or an update, and the object it asks
    to delete is the object its first call fetched.  All five
    reconcilers. *)
Theorem ensureDeleted_only_fetches_and_deletes `{C : Collaborators} St :
  OnlyFetchesAndDeletes (@ocsNFSService.ensureDeleted St) /\
  OnlyFetchesAndDeletes (@ocsCephNetworkFilesystem.ensureDeleted _ St) /\
  OnlyFetchesAndDeletes (@ocsCephNFS.ensureDeleted _ St) /\
  OnlyFetchesAndDeletes (@ocsCephNFSBlockPool.ensureDeleted _ St) /\
  OnlyFetchesAndDeletes (@ocsCephNFSService.ensureDeleted St).
Proof.
  repeat apply conj; intros r sc st made; subst made;
    reconciler_unfold; reconciler_simpl;
    repeat case_match; simplify_eq; about_calls.
Qed.

(** X10: with the feature on and whatever the client answers,
    [ensureCreated] makes at most two calls, at most one of which asks
    for a change, never a delete, and what it creates is what the
    builder built.  All five reconcilers. *)
Theorem ensureCreated_never_deletes_when_on `{C : Collaborators} St :
  NeverDeletesWhenOn (@ocsNFSService.newNFSService St)
                     (@ocsNFSService.ensureCreated St) /\
  NeverDeletesWhenOn
    (@ocsCephNetworkFilesystem.newCephNetworkFilesystemInstance _ St)
    (@ocsCephNetworkFilesystem.ensureCreated _ St) /\
  NeverDeletesWhenOn (@ocsCephNFS.newCephNFSInstance _ St)
                     (@ocsCephNFS.ensureCreated _ St) /\
  NeverDeletesWhenOn (@ocsCephNFSBlockPool.newCephNFSBlockPoolInstance _ St)
                     (@ocsCephNFSBlockPool.ensureCreated _ St) /\
  NeverDeletesWhenOn (@ocsCephNFSService.newNFSService St)
                     (@ocsCephNFSService.ensureCreated St).
Proof.
  repeat apply conj; intros r instance st Hon made; subst made;
    reconciler_unfold; rewrite Hon;
    match goal with
    | |- context [match ?b with Ok _ => _ | Err _ => _ end] =>
        destruct b as [desired | err] eqn:Hbuilt
    end;
    reconciler_simpl; repeat case_match; simplify_eq; about_calls.
Qed.

(** ** The paths of each reconciler, bundled *)

Ltac prove_paths :=
  split;
  [ unfold RejectsPendingDeletion; run_eq
  | unfold UpdatesFound; run_eq
  | unfold CreatesAbsent; run_eq
  | intros r instance w Hoff; reconciler_unfold; by rewrite Hoff
  | intros r instance w err Hbuilt; split; reconciler_unfold; rewrite Hbuilt;
    by destruct (nfsNotEnabled instance)
  | unfold DeleteOfAbsentSucceeds; run_eq
  | split;
    [ intros; note_unmarked; run_eq
    | intros; reconciler_unfold; reconciler_simpl;
      repeat case_match; simplify_eq; simpl; lia ]
  | unfold ReportsDeleteFailure; intros; note_unmarked; run_eq
  | intros r sc desired Hbuilt; open_builder; unfold GVKForObject in Hbuilt;
    destruct (Scheme.StorageClusterKinds (StorageClusterReconciler.Scheme r))
      as [| ? [|]]; simplify_eq; by eexists
  | by intros m []
  | by intros [] []
  | by intros [] [] ].

Lemma ocsNFSService_paths St :
  Paths (@ocsNFSService.newNFSService St) (@ocsNFSService.ensureCreated St)
        (@ocsNFSService.ensureDeleted St) restoreNFSService
        (errWaiting "NFS Service") "uninstall: Failed to delete NFS Service ".
Proof. prove_paths. Qed.

Lemma ocsCephNetworkFilesystem_paths `{C : Collaborators} St :
  Paths (@ocsCephNetworkFilesystem.newCephNetworkFilesystemInstance _ St)
        (@ocsCephNetworkFilesystem.ensureCreated _ St)
        (@ocsCephNetworkFilesystem.ensureDeleted _ St) restoreCephNFS
        (errWaiting "cephNetworkFilesystem")
        "uninstall: Failed to delete cephNetworkFilesystem ".
Proof. prove_paths. Qed.

Lemma ocsCephNFS_paths `{C : Collaborators} St :
  Paths (@ocsCephNFS.newCephNFSInstance _ St) (@ocsCephNFS.ensureCreated _ St)
        (@ocsCephNFS.ensureDeleted _ St) restoreCephNFS
        (errWaiting "CephNFS") "uninstall: Failed to delete CephNFS ".
Proof. prove_paths. Qed.

Lemma ocsCephNFSBlockPool_paths `{C : Collaborators} St :
  Paths (@ocsCephNFSBlockPool.newCephNFSBlockPoolInstance _ St)
        (@ocsCephNFSBlockPool.ensureCreated _ St)
        (@ocsCephNFSBlockPool.ensureDeleted _ St) restoreCephBlockPool
        (errWaiting "CephBlockPool")
        "uninstall: Failed to delete CephBlockPool ".
Proof. prove_paths. Qed.

Lemma ocsCephNFSService_paths St :
  Paths (@ocsCephNFSService.newNFSService St)
        (@ocsCephNFSService.ensureCreated St)
        (@ocsCephNFSService.ensureDeleted St) restoreCephNFSService
        (errWaiting "NFS Service") "uninstall: Failed to delete NFS Service ".
Proof. prove_paths. Qed.

(** X6: on the update path the reconcilers of cephnetworkfilesystem.go
    and cephnfs.go submit the live object with the whole spec and the
    owner references of the desired object, and with its own status and
    remaining metadata.  For the Service of cephnfs.go the spec copied
    includes the cluster IP, which the builder leaves empty. *)
Theorem ensureCreated_overwrites_spec `{C : Collaborators} St :
  OverwritesSpec
    (@ocsCephNetworkFilesystem.newCephNetworkFilesystemInstance _ St)
    (@ocsCephNetworkFilesystem.ensureCreated _ St)
    CephNFS.Spec CephNFS.Status /\
  OverwritesSpec (@ocsCephNFS.newCephNFSInstance _ St)
                 (@ocsCephNFS.ensureCreated _ St)
                 CephNFS.Spec CephNFS.Status /\
  OverwritesSpec (@ocsCephNFSBlockPool.newCephNFSBlockPoolInstance _ St)
                 (@ocsCephNFSBlockPool.ensureCreated _ St)
                 CephBlockPool.Spec CephBlockPool.Status /\
  OverwritesSpec (@ocsCephNFSService.newNFSService St)
                 (@ocsCephNFSService.ensureCreated St)
                 Service.Spec Service.Status.
Proof.
  repeat apply conj;
    intros r instance st desired existing st1 Hon Hbuilt Hget Hlive.
  - destruct (Client.Update r.(StorageClusterReconciler.Client)
                (restoreCephNFS desired existing) st1) as [err st2] eqn:Hupd.
    exists (restoreCephNFS desired existing), err. split; [| done].
    by rewrite (paths_updates _ _ _ _ _ _ (ocsCephNetworkFilesystem_paths St)
                  r instance st desired existing st1 err st2).
  - destruct (Client.Update r.(StorageClusterReconciler.Client)
                (restoreCephNFS desired existing) st1) as [err st2] eqn:Hupd.
    exists (restoreCephNFS desired existing), err. split; [| done].
    by rewrite (paths_updates _ _ _ _ _ _ (ocsCephNFS_paths St)
                  r instance st desired existing st1 err st2).
  - destruct (Client.Update r.(StorageClusterReconciler.Client)
                (restoreCephBlockPool desired existing) st1)
      as [err st2] eqn:Hupd.
    exists (restoreCephBlockPool desired existing), err. split; [| done].
    by rewrite (paths_updates _ _ _ _ _ _ (ocsCephNFSBlockPool_paths St)
                  r instance st desired existing st1 err st2).
  - destruct (Client.Update r.(StorageClusterReconciler.Client)
                (restoreCephNFSService desired existing) st1)
      as [err st2] eqn:Hupd.
    exists (restoreCephNFSService desired existing), err. split; [| done].
    by rewrite (paths_updates _ _ _ _ _ _ (ocsCephNFSService_paths St)
                  r instance st desired existing st1 err st2).
Qed.

(** ** The reconcilers on the object store *)

Section OnTheStore.
Context {Obj : Type} `{Object Obj}.
Variable build :
  StorageClusterReconciler.t Obj (gmap NamespacedName.t Obj) ->
  StorageCluster.t -> result Obj.
Variables ensureCreated ensureDeleted :
  StorageClusterReconciler.t Obj (gmap NamespacedName.t Obj) ->
  StorageCluster.t -> M Obj (gmap NamespacedName.t Obj) Outcome.
Variable restore : Obj -> Obj -> Obj.
Variable waiting : string -> error.
Variable failed : string.
Hypothesis paths : Paths build ensureCreated ensureDeleted restore waiting failed.
Variable now : Time.
Variable scheme : Scheme.t.

Let r := onStore (Obj:=Obj) now scheme.

(** What the builder built is looked for, by both entry points, under
    the same key, and nothing holds it back or marks it. *)
Lemma built_key sc desired :
  build r sc = Ok desired -> deleteKey desired sc = ObjectKeyFromObject desired.
Proof.
  intros Hbuilt. destruct (paths_owned _ _ _ _ _ _ paths _ _ _ Hbuilt)
    as (gvk & _ & Hmeta).
  apply (f_equal ObjectMeta.Namespace) in Hmeta. cbn in Hmeta.
  unfold deleteKey, ObjectKeyFromObject. by rewrite Hmeta.
Qed.

Lemma built_bare sc desired :
  build r sc = Ok desired ->
  (GetObjectMeta desired).(ObjectMeta.Finalizers) = [] /\
  (GetObjectMeta desired).(ObjectMeta.DeletionTimestamp) = None.
Proof.
  intros Hbuilt. destruct (paths_owned _ _ _ _ _ _ paths _ _ _ Hbuilt)
    as (gvk & _ & Hmeta).
  split.
  - by apply (f_equal ObjectMeta.Finalizers) in Hmeta.
  - by apply (f_equal ObjectMeta.DeletionTimestamp) in Hmeta.
Qed.

Lemma restore_key desired existing :
  ObjectKeyFromObject (restore desired existing) = ObjectKeyFromObject existing.
Proof.
  pose proof (paths_restore_rest _ _ _ _ _ _ paths desired existing) as Hrest.
  unfold ObjectKeyFromObject.
  apply (f_equal ObjectMeta.Name) in Hrest as Hname.
  apply (f_equal ObjectMeta.Namespace) in Hrest as Hns.
  cbn in Hname, Hns. by rewrite Hname, Hns.
Qed.

Lemma get_held (st : gmap NamespacedName.t Obj) key obj :
  st !! key = Some obj ->
  Client.Get r.(StorageClusterReconciler.Client) key st = (Ok obj, st).
Proof. intros Hheld. cbn. unfold Store.Get. by rewrite Hheld. Qed.

Lemma get_absent (st : gmap NamespacedName.t Obj) key :
  st !! key = None ->
  Client.Get r.(StorageClusterReconciler.Client) key st
  = (Err (Store.errNotFound key), st).
Proof. intros Habsent. cbn. unfold Store.Get. by rewrite Habsent. Qed.

(** [ensureDeleted] on the store: nothing there, *)
Lemma deleted_absent sc (st : gmap NamespacedName.t Obj) desired :
  build r sc = Ok desired ->
  st !! ObjectKeyFromObject desired = None ->
  ensureDeleted r sc (mkWorld st []) =
    ((Result.zero, None),
     mkWorld st [CallGet (ObjectKeyFromObject desired)
                   (Err (Store.errNotFound (ObjectKeyFromObject desired)))]).
Proof.
  intros Hbuilt Habsent.
  rewrite <- (built_key _ _ Hbuilt) in *.
  apply (paths_absent _ _ _ _ _ _ paths); [done | by apply get_absent | done].
Qed.

(** an object that nothing holds back, *)
Lemma deleted_free sc (st : gmap NamespacedName.t Obj) desired found :
  build r sc = Ok desired ->
  st !! ObjectKeyFromObject desired = Some found ->
  ObjectKeyFromObject found = ObjectKeyFromObject desired ->
  (GetObjectMeta found).(ObjectMeta.Finalizers) = [] ->
  ensureDeleted r sc (mkWorld st []) =
    ((Result.zero, None),
     mkWorld (delete (ObjectKeyFromObject desired) st)
       [CallGet (ObjectKeyFromObject desired) (Ok found);
        CallDelete found None;
        CallGet (ObjectKeyFromObject desired)
          (Err (Store.errNotFound (ObjectKeyFromObject desired)))]).
Proof.
  intros Hbuilt Hheld Hkey Hfree.
  rewrite <- (built_key _ _ Hbuilt) in *.
  set (key := deleteKey desired sc) in *.
  rewrite (proj1 (paths_refetch _ _ _ _ _ _ paths) r sc st desired found st
             (delete key st) (Err (Store.errNotFound key)) (delete key st));
    [done | done | by apply get_held | | apply get_absent, lookup_delete_eq].
  cbn. unfold Store.Delete. by rewrite Hkey, Hheld, Hfree.
Qed.

(** and an object that a finalizer holds back: it stays, marked. *)
Lemma deleted_held sc (st : gmap NamespacedName.t Obj) desired found :
  build r sc = Ok desired ->
  st !! ObjectKeyFromObject desired = Some found ->
  ObjectKeyFromObject found = ObjectKeyFromObject desired ->
  (GetObjectMeta found).(ObjectMeta.Finalizers) <> [] ->
  exists live,
    (GetObjectMeta live).(ObjectMeta.DeletionTimestamp) <> None /\
    (GetObjectMeta live).(ObjectMeta.Name)
      = (GetObjectMeta found).(ObjectMeta.Name) /\
    ensureDeleted r sc (mkWorld st []) =
      ((Result.zero,
        Some (waiting (GetObjectMeta desired).(ObjectMeta.Name))),
       mkWorld (<[ObjectKeyFromObject desired := live]> st)
         [CallGet (ObjectKeyFromObject desired) (Ok found);
          CallDelete found None;
          CallGet (ObjectKeyFromObject desired) (Ok live)]).
Proof.
  intros Hbuilt Hheld Hkey Hfin.
  rewrite <- (built_key _ _ Hbuilt) in *.
  set (key := deleteKey desired sc) in *.
  destruct ((GetObjectMeta found).(ObjectMeta.Finalizers))
    as [| finalizer rest] eqn:Hfinalizers; [done |].
  destruct ((GetObjectMeta found).(ObjectMeta.DeletionTimestamp))
    as [ts |] eqn:Hts.
  - exists found. split; [by rewrite Hts |]. split; [done |].
    rewrite (insert_id st key found Hheld).
    rewrite (proj1 (paths_refetch _ _ _ _ _ _ paths) r sc st desired found st
               st (Ok found) st);
      [done | done | by apply get_held | | by apply get_held].
    cbn. unfold Store.Delete. by rewrite Hkey, Hheld, Hfinalizers, Hts.
  - set (marked := SetObjectMeta
                     (ObjectMeta.setDeletionTimestamp (Some now)
                        (GetObjectMeta found)) found).
    exists marked.
    split; [by unfold marked; rewrite (paths_meta _ _ _ _ _ _ paths) |].
    split; [by unfold marked; rewrite (paths_meta _ _ _ _ _ _ paths) |].
    rewrite (proj1 (paths_refetch _ _ _ _ _ _ paths) r sc st desired found st
               (<[key := marked]> st) (Ok marked) (<[key := marked]> st));
      [done | done | by apply get_held | | apply get_held, lookup_insert_eq].
    cbn. unfold Store.Delete. by rewrite Hkey, Hheld, Hfinalizers, Hts.
Qed.

(** [ensureCreated] on the store, with the feature on: nothing there, *)
Lemma created_fresh instance (st : gmap NamespacedName.t Obj) desired :
  nfsNotEnabled instance = false ->
  build r instance = Ok desired ->
  st !! ObjectKeyFromObject desired = None ->
  ensureCreated r instance (mkWorld st []) =
    ((Result.zero, None),
     mkWorld (<[ObjectKeyFromObject desired := desired]> st)
       [CallGet (ObjectKeyFromObject desired)
          (Err (Store.errNotFound (ObjectKeyFromObject desired)));
        CallCreate desired None]).
Proof.
  intros Hon Hbuilt Habsent.
  eapply (paths_creates _ _ _ _ _ _ paths);
    [done | done | by apply get_absent | done |].
  cbn. unfold Store.Create. by rewrite Habsent.
Qed.

(** a live object, *)
Lemma restored_live instance (st : gmap NamespacedName.t Obj) desired existing :
  nfsNotEnabled instance = false ->
  build r instance = Ok desired ->
  st !! ObjectKeyFromObject desired = Some existing ->
  ObjectKeyFromObject existing = ObjectKeyFromObject desired ->
  (GetObjectMeta existing).(ObjectMeta.DeletionTimestamp) = None ->
  ensureCreated r instance (mkWorld st []) =
    ((Result.zero, None),
     mkWorld (<[ObjectKeyFromObject desired := restore desired existing]> st)
       [CallGet (ObjectKeyFromObject desired) (Ok existing);
        CallUpdate (restore desired existing) None]).
Proof.
  intros Hon Hbuilt Hheld Hkey Hlive.
  eapply (paths_updates _ _ _ _ _ _ paths);
    [done | done | by apply get_held | done |].
  cbn. unfold Store.Update. by rewrite restore_key, Hkey, Hheld.
Qed.

(** and an object marked for deletion. *)
Lemma refused_marked instance (st : gmap NamespacedName.t Obj) desired existing ts :
  nfsNotEnabled instance = false ->
  build r instance = Ok desired ->
  st !! ObjectKeyFromObject desired = Some existing ->
  (GetObjectMeta existing).(ObjectMeta.DeletionTimestamp) = Some ts ->
  ensureCreated r instance (mkWorld st []) =
    ((Result.zero,
      Some (errMarkedForDeletion (GetObjectMeta existing).(ObjectMeta.Name))),
     mkWorld st [CallGet (ObjectKeyFromObject desired) (Ok existing)]).
Proof.
  intros Hon Hbuilt Hheld Hmarked.
  by apply (paths_pending _ _ _ _ _ _ paths _ _ _ _ _ ts);
    [| | apply get_held |].
Qed.

End OnTheStore.

Section StoreProperties.
Context {Obj : Type} `{Object Obj}.
Variable build :
  StorageClusterReconciler.t Obj (gmap NamespacedName.t Obj) ->
  StorageCluster.t -> result Obj.
Variables ensureCreated ensureDeleted :
  StorageClusterReconciler.t Obj (gmap NamespacedName.t Obj) ->
  StorageCluster.t -> M Obj (gmap NamespacedName.t Obj) Outcome.
Variable restore : Obj -> Obj -> Obj.
Variable waiting : string -> error.
Variable failed : string.
Hypothesis paths : Paths build ensureCreated ensureDeleted restore waiting failed.

Lemma creates_on_fresh_cluster : CreatesOnFreshCluster build ensureCreated.
Proof.
  intros now scheme instance st desired Hon Hbuilt Habsent run. subst run.
  rewrite (created_fresh _ _ _ _ _ _ paths now scheme instance st desired)
    by done.
  repeat split. cbn. unfold Store.Get. by rewrite lookup_insert_eq.
Qed.

Lemma restores_live_object : RestoresLiveObject build ensureCreated restore.
Proof.
  intros now scheme instance st desired existing Hon Hbuilt Hkeyed Hheld Hlive
    run. subst run.
  rewrite (restored_live _ _ _ _ _ _ paths now scheme instance st desired
             existing) by eauto.
  repeat split. apply (paths_restore_owner _ _ _ _ _ _ paths).
Qed.

Lemma touches_only_its_object :
  TouchesOnlyItsObject build ensureCreated ensureDeleted.
Proof.
  intros now scheme instance st desired other Hbuilt Hkeyed Hother.
  set (key := ObjectKeyFromObject desired) in *.
  assert (Hdeleted :
    cluster (ensureDeleted (onStore now scheme) instance (mkWorld st [])).2
      !! other = st !! other).
  { destruct (st !! key) as [found |] eqn:Hheld.
    - pose proof (Hkeyed _ _ Hheld) as Hkey.
      destruct (decide ((GetObjectMeta found).(ObjectMeta.Finalizers) = []))
        as [Hfree | Hfin].
      + rewrite (deleted_free _ _ _ _ _ _ paths now scheme instance st desired
                   found) by done.
        cbn. by rewrite lookup_delete_ne.
      + destruct (deleted_held _ _ _ _ _ _ paths now scheme instance st desired
                    found) as (live & _ & _ & ->); [done .. |].
        cbn. by rewrite lookup_insert_ne.
    - by rewrite (deleted_absent _ _ _ _ _ _ paths now scheme instance st
                    desired). }
  split; [| done].
  destruct (nfsNotEnabled instance) eqn:Hflag.
  { by rewrite (paths_off _ _ _ _ _ _ paths). }
  destruct (st !! key) as [existing |] eqn:Hheld.
  - pose proof (Hkeyed _ _ Hheld) as Hkey.
    destruct ((GetObjectMeta existing).(ObjectMeta.DeletionTimestamp))
      as [ts |] eqn:Hts.
    + by rewrite (refused_marked _ _ _ _ _ _ paths now scheme instance st
                    desired existing ts).
    + rewrite (restored_live _ _ _ _ _ _ paths now scheme instance st desired
                 existing) by done.
      cbn. by rewrite lookup_insert_ne.
  - rewrite (created_fresh _ _ _ _ _ _ paths now scheme instance st desired)
      by done.
    cbn. by rewrite lookup_insert_ne.
Qed.

Lemma succeeds_exactly_when_gone :
  SucceedsExactlyWhenGone build ensureDeleted.
Proof.
  intros now scheme sc st desired Hbuilt Hkeyed run. subst run.
  set (key := ObjectKeyFromObject desired) in *.
  destruct (st !! key) as [found |] eqn:Hheld.
  - pose proof (Hkeyed _ _ Hheld) as Hkey.
    destruct (decide ((GetObjectMeta found).(ObjectMeta.Finalizers) = []))
      as [Hfree | Hfin].
    + rewrite (deleted_free _ _ _ _ _ _ paths now scheme sc st desired found)
        by done.
      cbn. by rewrite lookup_delete_eq.
    + destruct (deleted_held _ _ _ _ _ _ paths now scheme sc st desired found)
        as (live & _ & _ & ->); [done .. |].
      cbn. by rewrite lookup_insert_eq.
  - by rewrite (deleted_absent _ _ _ _ _ _ paths now scheme sc st desired).
Qed.

Lemma deletes_idempotently : DeletesIdempotently build ensureDeleted.
Proof.
  intros now scheme sc st desired Hbuilt Hkeyed first Hdone.
  pose proof (proj1 (succeeds_exactly_when_gone now scheme sc st desired
                       Hbuilt Hkeyed) Hdone) as Hgone.
  by apply (deleted_absent _ _ _ _ _ _ paths).
Qed.

Lemma delete_undoes_create :
  DeleteUndoesCreate build ensureCreated ensureDeleted.
Proof.
  intros now scheme instance st desired Hon Hbuilt Habsent first second.
  subst first second.
  set (key := ObjectKeyFromObject desired) in *.
  rewrite (created_fresh _ _ _ _ _ _ paths now scheme instance st desired)
    by done.
  cbn [snd fst cluster].
  destruct (built_bare _ _ _ _ _ _ paths now scheme instance desired Hbuilt)
    as [Hfree _].
  rewrite (deleted_free _ _ _ _ _ _ paths now scheme instance
             (<[key := desired]> st) desired desired);
    [| done | apply lookup_insert_eq | done | done].
  repeat split. cbn. by apply delete_insert_id.
Qed.

Lemma never_resurrects : NeverResurrects build ensureCreated ensureDeleted.
Proof.
  intros now scheme instance st desired existing Hon Hbuilt Hkeyed Hheld Hfin
    first second. subst first second.
  set (key := ObjectKeyFromObject desired) in *.
  destruct (deleted_held _ _ _ _ _ _ paths now scheme instance st desired
              existing) as (live & Hmarked & Hname & ->); [by eauto .. |].
  cbn [snd fst cluster]. split; [done |].
  exists live. split; [apply lookup_insert_eq |]. split; [done |].
  destruct ((GetObjectMeta live).(ObjectMeta.DeletionTimestamp))
    as [ts |] eqn:Hts; [| done].
  rewrite <- Hname.
  apply (refused_marked _ _ _ _ _ _ paths now scheme instance _ desired live ts);
    [done | done | apply lookup_insert_eq | done].
Qed.

End StoreProperties.

(** X11: on an object store that does not hold the object, [ensureCreated]
    with the feature on succeeds, the store then holds the object
    exactly as built under its name, and a fetch through the client
    answers it: what the tests of the package check after a reconcile.
    All five reconcilers. *)
Theorem ensureCreated_on_fresh_cluster `{C : Collaborators} :
  CreatesOnFreshCluster (@ocsNFSService.newNFSService _)
                        (@ocsNFSService.ensureCreated _) /\
  CreatesOnFreshCluster
    (@ocsCephNetworkFilesystem.newCephNetworkFilesystemInstance _ _)
    (@ocsCephNetworkFilesystem.ensureCreated _ _) /\
  CreatesOnFreshCluster (@ocsCephNFS.newCephNFSInstance _ _)
                        (@ocsCephNFS.ensureCreated _ _) /\
  CreatesOnFreshCluster (@ocsCephNFSBlockPool.newCephNFSBlockPoolInstance _ _)
                        (@ocsCephNFSBlockPool.ensureCreated _ _) /\
  CreatesOnFreshCluster (@ocsCephNFSService.newNFSService _)
                        (@ocsCephNFSService.ensureCreated _).
Proof.
  repeat apply conj.
  - eapply creates_on_fresh_cluster, ocsNFSService_paths.
  - eapply creates_on_fresh_cluster, ocsCephNetworkFilesystem_paths.
  - eapply creates_on_fresh_cluster, ocsCephNFS_paths.
  - eapply creates_on_fresh_cluster, ocsCephNFSBlockPool_paths.
  - eapply creates_on_fresh_cluster, ocsCephNFSService_paths.
Qed.

(** X12: on an object store that holds the object, not marked for
    deletion, [ensureCreated] with the feature on succeeds and the
    store then holds the restored object in its place, with the owner
    references of the desired object.  All five reconcilers. *)
Theorem ensureCreated_restores_live_object `{C : Collaborators} :
  RestoresLiveObject (@ocsNFSService.newNFSService _)
                     (@ocsNFSService.ensureCreated _) restoreNFSService /\
  RestoresLiveObject
    (@ocsCephNetworkFilesystem.newCephNetworkFilesystemInstance _ _)
    (@ocsCephNetworkFilesystem.ensureCreated _ _) restoreCephNFS /\
  RestoresLiveObject (@ocsCephNFS.newCephNFSInstance _ _)
                     (@ocsCephNFS.ensureCreated _ _) restoreCephNFS /\
  RestoresLiveObject (@ocsCephNFSBlockPool.newCephNFSBlockPoolInstance _ _)
                     (@ocsCephNFSBlockPool.ensureCreated _ _)
                     restoreCephBlockPool /\
  RestoresLiveObject (@ocsCephNFSService.newNFSService _)
                     (@ocsCephNFSService.ensureCreated _)
                     restoreCephNFSService.
Proof.
  repeat apply conj.
  - eapply restores_live_object, ocsNFSService_paths.
  - eapply restores_live_object, ocsCephNetworkFilesystem_paths.
  - eapply restores_live_object, ocsCephNFS_paths.
  - eapply restores_live_object, ocsCephNFSBlockPool_paths.
  - eapply restores_live_object, ocsCephNFSService_paths.
Qed.

(** X13: on the object store neither [ensureCreated] nor [ensureDeleted]
    changes what is held under any other name: every other object of
    the cluster is as it was.  All five reconcilers. *)
Theorem ensure_touches_only_its_object `{C : Collaborators} :
  TouchesOnlyItsObject (@ocsNFSService.newNFSService _)
    (@ocsNFSService.ensureCreated _) (@ocsNFSService.ensureDeleted _) /\
  TouchesOnlyItsObject
    (@ocsCephNetworkFilesystem.newCephNetworkFilesystemInstance _ _)
    (@ocsCephNetworkFilesystem.ensureCreated _ _)
    (@ocsCephNetworkFilesystem.ensureDeleted _ _) /\
  TouchesOnlyItsObject (@ocsCephNFS.newCephNFSInstance _ _)
    (@ocsCephNFS.ensureCreated _ _) (@ocsCephNFS.ensureDeleted _ _) /\
  TouchesOnlyItsObject (@ocsCephNFSBlockPool.newCephNFSBlockPoolInstance _ _)
    (@ocsCephNFSBlockPool.ensureCreated _ _)
    (@ocsCephNFSBlockPool.ensureDeleted _ _) /\
  TouchesOnlyItsObject (@ocsCephNFSService.newNFSService _)
    (@ocsCephNFSService.ensureCreated _) (@ocsCephNFSService.ensureDeleted _).
Proof.
  repeat apply conj.
  - eapply touches_only_its_object, ocsNFSService_paths.
  - eapply touches_only_its_object, ocsCephNetworkFilesystem_paths.
  - eapply touches_only_its_object, ocsCephNFS_paths.
  - eapply touches_only_its_object, ocsCephNFSBlockPool_paths.
  - eapply touches_only_its_object, ocsCephNFSService_paths.
Qed.

(** X14: on the object store [ensureDeleted] answers success (a nil
    error) exactly when the object is not in the store afterwards; an
    object that a finalizer holds back gives an error.  All five
    reconcilers. *)
Theorem ensureDeleted_succeeds_exactly_when_gone `{C : Collaborators} :
  SucceedsExactlyWhenGone (@ocsNFSService.newNFSService _)
                          (@ocsNFSService.ensureDeleted _) /\
  SucceedsExactlyWhenGone
    (@ocsCephNetworkFilesystem.newCephNetworkFilesystemInstance _ _)
    (@ocsCephNetworkFilesystem.ensureDeleted _ _) /\
  SucceedsExactlyWhenGone (@ocsCephNFS.newCephNFSInstance _ _)
                          (@ocsCephNFS.ensureDeleted _ _) /\
  SucceedsExactlyWhenGone
    (@ocsCephNFSBlockPool.newCephNFSBlockPoolInstance _ _)
    (@ocsCephNFSBlockPool.ensureDeleted _ _) /\
  SucceedsExactlyWhenGone (@ocsCephNFSService.newNFSService _)
                          (@ocsCephNFSService.ensureDeleted _).
Proof.
  repeat apply conj.
  - eapply succeeds_exactly_when_gone, ocsNFSService_paths.
  - eapply succeeds_exactly_when_gone, ocsCephNetworkFilesystem_paths.
  - eapply succeeds_exactly_when_gone, ocsCephNFS_paths.
  - eapply succeeds_exactly_when_gone, ocsCephNFSBlockPool_paths.
  - eapply succeeds_exactly_when_gone, ocsCephNFSService_paths.
Qed.

(** X15: on the object store, once [ensureDeleted] has answered success,
    running it again answers success after a single fetch and changes
    nothing.  All five reconcilers. *)
Theorem ensureDeleted_idempotent_on_store `{C : Collaborators} :
  DeletesIdempotently (@ocsNFSService.newNFSService _)
                      (@ocsNFSService.ensureDeleted _) /\
  DeletesIdempotently
    (@ocsCephNetworkFilesystem.newCephNetworkFilesystemInstance _ _)
    (@ocsCephNetworkFilesystem.ensureDeleted _ _) /\
  DeletesIdempotently (@ocsCephNFS.newCephNFSInstance _ _)
                      (@ocsCephNFS.ensureDeleted _ _) /\
  DeletesIdempotently (@ocsCephNFSBlockPool.newCephNFSBlockPoolInstance _ _)
                      (@ocsCephNFSBlockPool.ensureDeleted _ _) /\
  DeletesIdempotently (@ocsCephNFSService.newNFSService _)
                      (@ocsCephNFSService.ensureDeleted _).
Proof.
  repeat apply conj.
  - eapply deletes_idempotently, ocsNFSService_paths.
  - eapply deletes_idempotently, ocsCephNetworkFilesystem_paths.
  - eapply deletes_idempotently, ocsCephNFS_paths.
  - eapply deletes_idempotently, ocsCephNFSBlockPool_paths.
  - eapply deletes_idempotently, ocsCephNFSService_paths.
Qed.

(** X16: on an object store that does not hold the object,
    [ensureCreated] with the feature on followed by [ensureDeleted]
    both succeed and leave the store as it was at the start: what is
    built carries no finalizer and is looked up under the key it was
    created under.  All five reconcilers. *)
Theorem ensureDeleted_undoes_ensureCreated `{C : Collaborators} :
  DeleteUndoesCreate (@ocsNFSService.newNFSService _)
    (@ocsNFSService.ensureCreated _) (@ocsNFSService.ensureDeleted _) /\
  DeleteUndoesCreate
    (@ocsCephNetworkFilesystem.newCephNetworkFilesystemInstance _ _)
    (@ocsCephNetworkFilesystem.ensureCreated _ _)
    (@ocsCephNetworkFilesystem.ensureDeleted _ _) /\
  DeleteUndoesCreate (@ocsCephNFS.newCephNFSInstance _ _)
    (@ocsCephNFS.ensureCreated _ _) (@ocsCephNFS.ensureDeleted _ _) /\
  DeleteUndoesCreate (@ocsCephNFSBlockPool.newCephNFSBlockPoolInstance _ _)
    (@ocsCephNFSBlockPool.ensureCreated _ _)
    (@ocsCephNFSBlockPool.ensureDeleted _ _) /\
  DeleteUndoesCreate (@ocsCephNFSService.newNFSService _)
    (@ocsCephNFSService.ensureCreated _) (@ocsCephNFSService.ensureDeleted _).
Proof.
  repeat apply conj.
  - eapply delete_undoes_create, ocsNFSService_paths.
  - eapply delete_undoes_create, ocsCephNetworkFilesystem_paths.
  - eapply delete_undoes_create, ocsCephNFS_paths.
  - eapply delete_undoes_create, ocsCephNFSBlockPool_paths.
  - eapply delete_undoes_create, ocsCephNFSService_paths.
Qed.

(** X17: on the object store, an object with a finalizer outlives
    [ensureDeleted], which answers an error and leaves it marked for
    deletion; an [ensureCreated] that follows answers the
    pending-deletion error after its fetch alone, so the store still
    holds the marked object.  All five reconcilers. *)
Theorem ensureCreated_never_resurrects `{C : Collaborators} :
  NeverResurrects (@ocsNFSService.newNFSService _)
    (@ocsNFSService.ensureCreated _) (@ocsNFSService.ensureDeleted _) /\
  NeverResurrects
    (@ocsCephNetworkFilesystem.newCephNetworkFilesystemInstance _ _)
    (@ocsCephNetworkFilesystem.ensureCreated _ _)
    (@ocsCephNetworkFilesystem.ensureDeleted _ _) /\
  NeverResurrects (@ocsCephNFS.newCephNFSInstance _ _)
    (@ocsCephNFS.ensureCreated _ _) (@ocsCephNFS.ensureDeleted _ _) /\
  NeverResurrects (@ocsCephNFSBlockPool.newCephNFSBlockPoolInstance _ _)
    (@ocsCephNFSBlockPool.ensureCreated _ _)
    (@ocsCephNFSBlockPool.ensureDeleted _ _) /\
  NeverResurrects (@ocsCephNFSService.newNFSService _)
    (@ocsCephNFSService.ensureCreated _) (@ocsCephNFSService.ensureDeleted _).
Proof.
  repeat apply conj.
  - eapply never_resurrects, ocsNFSService_paths.
  - eapply never_resurrects, ocsCephNetworkFilesystem_paths.
  - eapply never_resurrects, ocsCephNFS_paths.
  - eapply never_resurrects, ocsCephNFSBlockPool_paths.
  - eapply never_resurrects, ocsCephNFSService_paths.
Qed.

(** X18: when the live Service is found, [ensureCreated] of nfsservice.go
    does the same for any two parents with the feature on that agree
    on name, namespace and UID, whatever else differs: in particular a
    change of [hostNetwork] in the parent, which the builder turns into
    a headless Service, never reaches a Service that already exists. *)
Theorem nfsService_update_ignores_the_rest_of_the_parent St
  (r : StorageClusterReconciler.t Service.t St) p p' st existing st1 :
  nfsNotEnabled p = false ->
  nfsNotEnabled p' = false ->
  StorageCluster.Name p = StorageCluster.Name p' ->
  StorageCluster.Namespace p = StorageCluster.Namespace p' ->
  p.(StorageCluster.ObjectMeta).(ObjectMeta.UID) =
    p'.(StorageCluster.ObjectMeta).(ObjectMeta.UID) ->
  Client.Get r.(StorageClusterReconciler.Client)
    (NamespacedName.mk (generateNameForNFSService p)
                       (StorageCluster.Namespace p)) st
    = (Ok existing, st1) ->
  ocsNFSService.ensureCreated r p (mkWorld st []) =
  ocsNFSService.ensureCreated r p' (mkWorld st []).
Proof.
  intros Hon Hon' Hname Hns Huid Hget.
  unfold ocsNFSService.ensureCreated. rewrite Hon, Hon'.
  open_builder;
    unfold generateNameForNFSService, generateNameForCephNetworkFilesystem,
      controllerRef in *;
    rewrite <- ?Hname, <- ?Hns, <- ?Huid;
    destruct (GVKForObject (StorageClusterReconciler.Scheme r)); try done;
    reconciler_unfold; reconciler_simpl;
    cbv [ObjectMeta.named ObjectMeta.setOwnerReferences ObjectMeta.Name
         ObjectMeta.Namespace ObjectMeta.OwnerReferences
         ServiceSpec.setClusterIP] in *;
    rewrite Hget; reflexivity.
Qed.

(** X19: the Service selects the pods of the CephNFS of the same parent:
    the [ceph_nfs] entry of the selector built by nfsservice.go is the
    name of the CephNFS built by cephnetworkfilesystem.go, the one
    built by cephnfs.go is the name of the CephNFS of cephnfs.go, and
    Service and CephNFS are in the same namespace. *)
Theorem service_selects_the_cephnfs_of_its_parent `{C : Collaborators}
  St St' (rs : StorageClusterReconciler.t Service.t St)
  (rn : StorageClusterReconciler.t CephNFS.t St') p svc nfs :
  (ocsNFSService.newNFSService rs p = Ok svc ->
   ocsCephNetworkFilesystem.newCephNetworkFilesystemInstance rn p = Ok nfs ->
   svc.(Service.Spec).(ServiceSpec.Selector) !! "ceph_nfs"
     = Some (CephNFS.Name nfs) /\
   Service.Namespace svc = CephNFS.Namespace nfs) /\
  (ocsCephNFSService.newNFSService rs p = Ok svc ->
   ocsCephNFS.newCephNFSInstance rn p = Ok nfs ->
   svc.(Service.Spec).(ServiceSpec.Selector) !! "ceph_nfs"
     = Some (CephNFS.Name nfs) /\
   Service.Namespace svc = CephNFS.Namespace nfs).
Proof.
  split; intros Hsvc Hnfs; open_builder;
    destruct (GVKForObject (StorageClusterReconciler.Scheme rs));
    destruct (GVKForObject (StorageClusterReconciler.Scheme rn));
    simplify_eq; split; try reflexivity;
    cbn; by rewrite lookup_insert_ne, lookup_insert_eq.
Qed.

(** ** The further properties at concrete parents and clusters *)

Lemma builders_set_one_owner_witness :
  exists gvk,
    Fixture.scheme.(Scheme.StorageClusterKinds) = [gvk] /\
    Fixture.desiredService.(Service.ObjectMeta) =
      ObjectMeta.setOwnerReferences [controllerRef gvk Fixture.ocsinit]
        (ObjectMeta.named "ocsinit-cephnfs-service" "openshift-storage").
Proof.
  apply (proj1 (builders_set_one_owner (C:=Fixture.collaborators) _)
           Fixture.serviceReconciler Fixture.ocsinit Fixture.desiredService).
  by_evaluation.
Defined.

Lemma builders_fail_only_on_scheme_witness :
  ocsNFSService.newNFSService Scenario.unregisteredServiceReconciler
    Fixture.ocsinit = Err Scenario.errNotRegistered.
Proof.
  apply (proj1 (builders_fail_only_on_scheme (C:=Fixture.collaborators) _)).
  reflexivity.
Defined.

Lemma ensure_surfaces_builder_error_witness :
  ocsNFSService.ensureDeleted Scenario.unregisteredServiceReconciler
    Fixture.ocsinit
    (mkWorld {[Fixture.serviceKey := Fixture.liveService]} []) =
  ((Result.zero, Some Scenario.errNotRegistered),
   mkWorld {[Fixture.serviceKey := Fixture.liveService]} []).
Proof.
  apply (proj1 (ensure_surfaces_builder_error (C:=Fixture.collaborators) _)).
  reflexivity.
Defined.

Lemma ensureCreated_creates_absent_witness :
  ocsNFSService.ensureCreated Fixture.serviceReconciler Fixture.ocsinit
    (mkWorld ∅ []) =
  ((Result.zero, None),
   mkWorld {[Fixture.serviceKey := Fixture.desiredService]}
     [CallGet Fixture.serviceKey
        (Err (StatusError StatusReasonNotFound
                "ocsinit-cephnfs-service not found"));
      CallCreate Fixture.desiredService None]).
Proof.
  apply (proj1 (ensureCreated_creates_absent (C:=Fixture.collaborators) _)
           Fixture.serviceReconciler Fixture.ocsinit ∅ Fixture.desiredService
           (StatusError StatusReasonNotFound
              "ocsinit-cephnfs-service not found") ∅ None
           {[Fixture.serviceKey := Fixture.desiredService]});
    by_evaluation.
Defined.

(** A refused update is handed back as it came. *)
Lemma ensureCreated_updates_found_witness :
  ocsNFSService.ensureCreated Scenario.readOnlyServiceReconciler
    Fixture.ocsinit
    (mkWorld {[Fixture.serviceKey := Fixture.liveService]} []) =
  ((Result.zero, Some Fixture.internalError),
   mkWorld {[Fixture.serviceKey := Fixture.liveService]}
     [CallGet Fixture.serviceKey (Ok Fixture.liveService);
      CallUpdate Fixture.restoredService (Some Fixture.internalError)]).
Proof.
  apply (proj1 (ensureCreated_updates_found (C:=Fixture.collaborators) _)
           Scenario.readOnlyServiceReconciler Fixture.ocsinit
           {[Fixture.serviceKey := Fixture.liveService]}
           Fixture.desiredService Fixture.liveService
           {[Fixture.serviceKey := Fixture.liveService]}
           (Some Fixture.internalError)
           {[Fixture.serviceKey := Fixture.liveService]});
    by_evaluation.
Defined.

(** The Service of cephnfs.go loses its cluster IP on the update path. *)
Lemma ensureCreated_overwrites_spec_witness :
  exists submitted err,
    calls (ocsCephNFSService.ensureCreated Fixture.serviceReconciler
             Fixture.ocsinit
             (mkWorld {[Fixture.serviceKey := Fixture.liveService]} [])).2 =
      [CallGet Fixture.serviceKey (Ok Fixture.liveService);
       CallUpdate submitted err] /\
    Fixture.liveService.(Service.Spec).(ServiceSpec.ClusterIP) = "172.30.7.9" /\
    submitted.(Service.Spec).(ServiceSpec.ClusterIP) = "".
Proof.
  destruct (proj2 (proj2 (proj2 (ensureCreated_overwrites_spec
                                   (C:=Fixture.collaborators) _)))
              Fixture.serviceReconciler Fixture.ocsinit
              {[Fixture.serviceKey := Fixture.liveService]}
              Scenario.desiredServiceOfCephNFS Fixture.liveService
              {[Fixture.serviceKey := Fixture.liveService]})
    as (submitted & err & Hcalls & Hspec & _);
    [reflexivity | by_evaluation | by_evaluation | reflexivity |].
  exists submitted, err. split; [exact Hcalls |]. split; [reflexivity |].
  cbn in Hspec. by rewrite Hspec.
Defined.

Lemma ensureDeleted_reports_fetch_failure_witness :
  ocsNFSService.ensureDeleted Fixture.cutOffServiceReconciler
    Fixture.ocsinitDisabled (mkWorld tt []) =
  ((Result.zero,
    Some (errorString
      "uninstall: Unable to retrieve NFS Service ocsinit-cephnfs-service: etcdserver: request timed out")),
   mkWorld tt [CallGet Fixture.serviceKey (Err Fixture.internalError)]).
Proof.
  apply (proj1 (ensureDeleted_reports_fetch_failure
                  (C:=Fixture.collaborators) _)
           Fixture.cutOffServiceReconciler Fixture.ocsinitDisabled tt
           Fixture.desiredService Fixture.internalError tt);
    by_evaluation.
Defined.

Lemma ensureDeleted_reports_delete_failure_witness :
  ocsNFSService.ensureDeleted Scenario.readOnlyServiceReconciler
    Fixture.ocsinitDisabled
    (mkWorld {[Fixture.serviceKey := Fixture.liveService]} []) =
  ((Result.zero,
    Some (errorString
      "uninstall: Failed to delete NFS Service ocsinit-cephnfs-service: etcdserver: request timed out")),
   mkWorld {[Fixture.serviceKey := Fixture.liveService]}
     [CallGet Fixture.serviceKey (Ok Fixture.liveService);
      CallDelete Fixture.liveService (Some Fixture.internalError)]).
Proof.
  apply (proj1 (ensureDeleted_reports_delete_failure
                  (C:=Fixture.collaborators) _)
           Scenario.readOnlyServiceReconciler Fixture.ocsinitDisabled
           {[Fixture.serviceKey := Fixture.liveService]}
           Fixture.desiredService Fixture.liveService
           {[Fixture.serviceKey := Fixture.liveService]}
           Fixture.internalError
           {[Fixture.serviceKey := Fixture.liveService]});
    by_evaluation.
Defined.

Lemma ensureCreated_never_deletes_when_on_witness :
  (length
     (calls (ocsNFSService.ensureCreated Fixture.serviceReconciler
               Fixture.ocsinit
               (mkWorld {[Fixture.serviceKey := Fixture.liveService]} [])).2)
   <= 2)%nat /\
  (length
     (List.filter isMutating
        (calls (ocsNFSService.ensureCreated Fixture.serviceReconciler
                  Fixture.ocsinit
                  (mkWorld {[Fixture.serviceKey := Fixture.liveService]}
                           [])).2))
   <= 1)%nat.
Proof.
  destruct (proj1 (ensureCreated_never_deletes_when_on
                     (C:=Fixture.collaborators) _)
              Fixture.serviceReconciler Fixture.ocsinit
              {[Fixture.serviceKey := Fixture.liveService]} eq_refl)
    as (Hcalls & Hchanges & _).
  split; [exact Hcalls | exact Hchanges].
Defined.

(** After the reconcile of a fresh cluster the Service is there as
    built. *)
Lemma ensureCreated_on_fresh_cluster_witness :
  Client.Get (Store.client 500) Fixture.serviceKey
    (cluster (ocsNFSService.ensureCreated Fixture.serviceReconciler
                Fixture.ocsinit (mkWorld ∅ [])).2)
  = (Ok Fixture.desiredService,
     cluster (ocsNFSService.ensureCreated Fixture.serviceReconciler
                Fixture.ocsinit (mkWorld ∅ [])).2).
Proof.
  apply (proj1 (ensureCreated_on_fresh_cluster (C:=Fixture.collaborators))
           500 Fixture.scheme Fixture.ocsinit ∅ Fixture.desiredService);
    by_evaluation.
Defined.

Lemma singleton_wellKeyed :
  Store.wellKeyed
    ({[Fixture.serviceKey := Fixture.liveService]}
       : gmap NamespacedName.t Service.t).
Proof.
  intros key obj Hheld.
  apply lookup_singleton_Some in Hheld as [<- <-]. reflexivity.
Defined.

Lemma twoServices_wellKeyed : Store.wellKeyed Scenario.twoServices.
Proof.
  intros key obj Hheld. unfold Scenario.twoServices in Hheld.
  apply lookup_insert_Some in Hheld as [[<- <-] | [_ Hheld]]; [reflexivity |].
  apply lookup_singleton_Some in Hheld as [<- <-]. reflexivity.
Defined.

Lemma ensureCreated_restores_live_object_witness :
  cluster (ocsNFSService.ensureCreated Fixture.serviceReconciler
             Fixture.ocsinit
             (mkWorld {[Fixture.serviceKey := Fixture.liveService]} [])).2
  = <[Fixture.serviceKey :=
        restoreNFSService Fixture.desiredService Fixture.liveService]>
      {[Fixture.serviceKey := Fixture.liveService]}.
Proof.
  apply (proj1 (ensureCreated_restores_live_object
                  (C:=Fixture.collaborators))
           500 Fixture.scheme Fixture.ocsinit
           {[Fixture.serviceKey := Fixture.liveService]}
           Fixture.desiredService Fixture.liveService);
    [reflexivity | by_evaluation | apply singleton_wellKeyed
     | by_evaluation | reflexivity].
Defined.

(** The Service of somebody else is as it was, after either entry
    point. *)
Lemma ensure_touches_only_its_object_witness :
  cluster (ocsNFSService.ensureCreated Fixture.serviceReconciler
             Fixture.ocsinit (mkWorld Scenario.twoServices [])).2
    !! Scenario.otherKey = Scenario.twoServices !! Scenario.otherKey /\
  cluster (ocsNFSService.ensureDeleted Fixture.serviceReconciler
             Fixture.ocsinit (mkWorld Scenario.twoServices [])).2
    !! Scenario.otherKey = Scenario.twoServices !! Scenario.otherKey.
Proof.
  apply (proj1 (ensure_touches_only_its_object (C:=Fixture.collaborators))
           500 Fixture.scheme Fixture.ocsinit Scenario.twoServices
           Fixture.desiredService Scenario.otherKey);
    [by_evaluation | apply twoServices_wellKeyed | discriminate].
Defined.

(** The drifted Service has a finalizer: [ensureDeleted] does not
    succeed, and the Service is still there. *)
Lemma ensureDeleted_succeeds_exactly_when_gone_witness :
  (ocsNFSService.ensureDeleted Fixture.serviceReconciler Fixture.ocsinit
     (mkWorld {[Fixture.serviceKey := Fixture.liveService]} [])).1.2 = None <->
  cluster (ocsNFSService.ensureDeleted Fixture.serviceReconciler
             Fixture.ocsinit
             (mkWorld {[Fixture.serviceKey := Fixture.liveService]} [])).2
    !! Fixture.serviceKey = None.
Proof.
  apply (proj1 (ensureDeleted_succeeds_exactly_when_gone
                  (C:=Fixture.collaborators))
           500 Fixture.scheme Fixture.ocsinit
           {[Fixture.serviceKey := Fixture.liveService]}
           Fixture.desiredService);
    [by_evaluation | apply singleton_wellKeyed].
Defined.

Lemma built_wellKeyed :
  Store.wellKeyed
    ({[Fixture.serviceKey := Fixture.desiredService]}
       : gmap NamespacedName.t Service.t).
Proof.
  intros key obj Hheld.
  apply lookup_singleton_Some in Hheld as [<- <-]. reflexivity.
Defined.

(** The Service as built has no finalizer: the first [ensureDeleted]
    removes it, the second finds nothing. *)
Lemma ensureDeleted_idempotent_on_store_witness :
  ocsNFSService.ensureDeleted Fixture.serviceReconciler Fixture.ocsinit
    (mkWorld
       (cluster (ocsNFSService.ensureDeleted Fixture.serviceReconciler
                   Fixture.ocsinit
                   (mkWorld {[Fixture.serviceKey := Fixture.desiredService]}
                            [])).2) []) =
  ((Result.zero, None),
   mkWorld
     (cluster (ocsNFSService.ensureDeleted Fixture.serviceReconciler
                 Fixture.ocsinit
                 (mkWorld {[Fixture.serviceKey := Fixture.desiredService]}
                          [])).2)
     [CallGet Fixture.serviceKey (Err (Store.errNotFound Fixture.serviceKey))]).
Proof.
  apply (proj1 (ensureDeleted_idempotent_on_store
                  (C:=Fixture.collaborators))
           500 Fixture.scheme Fixture.ocsinit
           {[Fixture.serviceKey := Fixture.desiredService]}
           Fixture.desiredService);
    [by_evaluation | apply built_wellKeyed | by_evaluation].
Defined.

Lemma ensureDeleted_undoes_ensureCreated_witness :
  cluster (ocsNFSService.ensureDeleted Fixture.serviceReconciler
             Fixture.ocsinit
             (mkWorld
                (cluster (ocsNFSService.ensureCreated
                            Fixture.serviceReconciler Fixture.ocsinit
                            (mkWorld {[Scenario.otherKey :=
                                         Scenario.otherService]} [])).2)
                [])).2
  = {[Scenario.otherKey := Scenario.otherService]}.
Proof.
  apply (proj1 (ensureDeleted_undoes_ensureCreated
                  (C:=Fixture.collaborators))
           500 Fixture.scheme Fixture.ocsinit
           {[Scenario.otherKey := Scenario.otherService]}
           Fixture.desiredService);
    [reflexivity | by_evaluation | by_evaluation].
Defined.

Lemma ensureCreated_never_resurrects_witness :
  (ocsNFSService.ensureCreated Fixture.serviceReconciler Fixture.ocsinit
     (mkWorld
        (cluster (ocsNFSService.ensureDeleted Fixture.serviceReconciler
                    Fixture.ocsinit
                    (mkWorld {[Fixture.serviceKey := Fixture.liveService]}
                             [])).2) [])).1.2
  = Some (errMarkedForDeletion "ocsinit-cephnfs-service").
Proof.
  destruct (proj1 (ensureCreated_never_resurrects
                     (C:=Fixture.collaborators))
              500 Fixture.scheme Fixture.ocsinit
              {[Fixture.serviceKey := Fixture.liveService]}
              Fixture.desiredService Fixture.liveService)
    as (_ & live & _ & _ & Hsecond);
    [reflexivity | by_evaluation | apply singleton_wellKeyed
     | by_evaluation | discriminate |].
  unfold onStore in Hsecond. unfold Fixture.serviceReconciler.
  by rewrite Hsecond.
Defined.

(** Host networking switched on in the parent: the live Service is
    restored exactly as for the parent without it. *)
Lemma nfsService_update_ignores_the_rest_of_the_parent_witness :
  ocsNFSService.ensureCreated Fixture.serviceReconciler Fixture.ocsinit
    (mkWorld {[Fixture.serviceKey := Fixture.liveService]} []) =
  ocsNFSService.ensureCreated Fixture.serviceReconciler
    Scenario.ocsinitHostNetwork
    (mkWorld {[Fixture.serviceKey := Fixture.liveService]} []).
Proof.
  apply (nfsService_update_ignores_the_rest_of_the_parent _
           Fixture.serviceReconciler Fixture.ocsinit
           Scenario.ocsinitHostNetwork
           {[Fixture.serviceKey := Fixture.liveService]} Fixture.liveService
           {[Fixture.serviceKey := Fixture.liveService]});
    [reflexivity | reflexivity | reflexivity | reflexivity | reflexivity
     | by_evaluation].
Defined.

Lemma service_selects_the_cephnfs_of_its_parent_witness :
  Fixture.desiredService.(Service.Spec).(ServiceSpec.Selector) !! "ceph_nfs"
    = Some (CephNFS.Name Scenario.desiredNetworkFilesystem) /\
  Service.Namespace Fixture.desiredService
    = CephNFS.Namespace Scenario.desiredNetworkFilesystem.
Proof.
  apply (proj1 (service_selects_the_cephnfs_of_its_parent
                  (C:=Fixture.collaborators) _ _
                  Fixture.serviceReconciler Fixture.cephNFSReconciler
                  Fixture.ocsinit Fixture.desiredService
                  Scenario.desiredNetworkFilesystem));
    by_evaluation.
Defined.
